(** * Citizen Connect ACS: transform, identity assignment and validation

    A shallow embedding of [sources/acs5.py] and [update_socrata_dataset.py].

    Modelling conventions.
    - A pandas [DataFrame] is the list of its rows, in index order; a row is
      a record holding one cell per column.  A string or integer column
      holds [option]al values, [None] being the column's null ([None],
      [NaN] or [pd.NA]); a float column holds IEEE doubles and its null is
      [NaN], as in pandas.
    - A row seen as a Python [Mapping] (what [DataFrame.apply(f, axis=1)]
      hands to [f]) is the ordered association list of its column names and
      cells.
    - A Python [str] is the [string] of its characters, which are taken
      below U+0100; on such texts the class [\d] of [re] is the ten ASCII
      digits.
    - Python exceptions are the [Raise] results of the [exc] monad.
    - Libraries that are not part of the repository (the Census client, the
      WKT reader and writer, the Socrata client, the labels file, the clock,
      the printing of floats) are the fields of the [Extern] record. *)

From Stdlib Require Import PrimFloat Ascii String.
From stdpp Require Import base option list strings pretty.

Open Scope string_scope.
Open Scope Z_scope.

(** ** Python values, exceptions and strings *)

Module Py.

Inductive exn : Type :=
| KeyError (key : string)
| ValueError (msg : string)
| TypeError (msg : string)
| AttributeError (msg : string)
| SchemaError (msg : string)
| ExternalError (msg : string).

Inductive exc (A : Type) : Type :=
| Ok (a : A)
| Raise (e : exn).
Global Arguments Ok {A} a.
Global Arguments Raise {A} e.

Global Instance exc_ret : MRet exc := λ A a, Ok a.
Global Instance exc_bind : MBind exc := λ A B f m,
  match m with
  | Ok a => f a
  | Raise e => Raise e
  end.

Definition is_ok {A} (m : exc A) : bool :=
  match m with Ok _ => true | Raise _ => false end.

(** [[f(x) for x in l]] where [f] may raise: the first exception wins. *)
Fixpoint map_exc {A B} (f : A → exc B) (l : list A) : exc (list B) :=
  match l with
  | [] => Ok []
  | x :: l' => y ← f x; ys ← map_exc f l'; Ok (y :: ys)
  end.

(** A cell of a data frame, or any value a [Mapping] can hold here.  The
    nulls of an object column ([None], [NaN], [pd.NA]) are one value [NA]:
    the code under study tells them apart from the other cells with
    [notnull] only. *)
Inductive cell : Type :=
| NA
| Str (s : string)
| Int (z : Z)
| Float (f : float).

(** [x is not None and pd.notnull(x)]. *)
Definition notnull (c : cell) : bool :=
  match c with
  | NA => false
  | Float f => negb (PrimFloat.is_nan f)
  | Str _ | Int _ => true
  end.

Definition of_str (o : option string) : cell := from_option Str NA o.
Definition of_int (o : option Z) : cell := from_option Int NA o.

(** Equality of two cells as [Series.duplicated] sees it (nulls are equal
    to each other). *)
Definition cell_eqb (a b : cell) : bool :=
  match a, b with
  | Str s, Str t => bool_decide (s = t)
  | Int x, Int y => bool_decide (x = y)
  | Float f, Float g =>
      (PrimFloat.eqb f g || (PrimFloat.is_nan f && PrimFloat.is_nan g))%bool
  | _, _ => (negb (notnull a) && negb (notnull b))%bool
  end.

(** An ordered mapping with string keys: a row [Series], or a [dict]. *)
Definition Mapping : Type := list (string * cell).

Fixpoint assoc (k : string) (m : Mapping) : option cell :=
  match m with
  | [] => None
  | (k', v) :: m' => if bool_decide (k = k') then Some v else assoc k m'
  end.

(** [m[k]]. *)
Definition getitem (m : Mapping) (k : string) : exc cell :=
  match assoc k m with
  | Some v => Ok v
  | None => Raise (KeyError k)
  end.

(** [m[k] = v] on a [dict]: an existing key keeps its place. *)
Fixpoint setitem (m : Mapping) (k : string) (v : cell) : Mapping :=
  match m with
  | [] => [(k, v)]
  | (k', v') :: m' =>
      if bool_decide (k = k') then (k, v) :: m' else (k', v') :: setitem m' k v
  end.

(** [sep.join(parts)]. *)
Fixpoint join (sep : string) (parts : list string) : string :=
  match parts with
  | [] => ""
  | [p] => p
  | p :: ps => p +:+ sep +:+ join sep ps
  end.

(** [s[:n]]. *)
Fixpoint take_str (n : nat) (s : string) : string :=
  match n, s with
  | S n', String c s' => String c (take_str n' s')
  | _, _ => ""
  end.

Section Format.
(** [str(x)] of a float is left to the environment. *)
Variable repr_float : float → string.

(** [format(v, "")], that is [str(v)]; on a null, the text of [None]. *)
Definition str (c : cell) : string :=
  match c with
  | NA => "None"
  | Str s => s
  | Int z => pretty z
  | Float f => repr_float f
  end.

(** The name of a replacement field, up to its closing brace.  Field
    names with a conversion, a format specification, an attribute or an
    index are outside this model and are reported as [ValueError]. *)
Fixpoint field_name (t : string) : option (string * string) :=
  match t with
  | "" => None
  | String c t' =>
      if bool_decide (c = "}"%char) then Some ("", t')
      else if bool_decide (c ∈ ["{"; "!"; ":"; "."; "["]%char) then None
      else '(n, r) ← field_name t'; Some (String c n, r)
  end.

(** [template.format_map(values)].  [fuel] bounds the number of literal
    characters and fields, [String.length template] always suffices. *)
Fixpoint format_go (fuel : nat) (t : string) (values : Mapping) : exc string :=
  match fuel, t with
  | _, "" => Ok ""
  | O, _ => Raise (ValueError "format")
  | S fuel', String c t' =>
      if bool_decide (c = "{"%char) then
        match t' with
        | String "{" t'' => r ← format_go fuel' t'' values; Ok (String "{" r)
        | _ =>
            match field_name t' with
            | None => Raise (ValueError "expected '}' before end of string")
            | Some (name, rest) =>
                v ← getitem values name;
                r ← format_go fuel' rest values;
                Ok (str v +:+ r)
            end
        end
      else if bool_decide (c = "}"%char) then
        match t' with
        | String "}" t'' => r ← format_go fuel' t'' values; Ok (String "}" r)
        | _ => Raise (ValueError "Single '}' encountered in format string")
        end
      else r ← format_go fuel' t' values; Ok (String c r)
  end.

Definition format_map (t : string) (values : Mapping) : exc string :=
  format_go (String.length t) t values.
End Format.

End Py.


(** ** [datetime.strptime(value, "%Y-%m-%d")]

    The directives of the standard library, as its [_strptime] compiles
    them: [%Y] is four digits, [%m] is [1[0-2]|0[1-9]|[1-9]], [%d] is
    [3[01]|[12]\d|0[1-9]|[1-9]| [1-9]], alternatives tried in that order;
    text left over after the day, or a date that is not in the calendar,
    is a [ValueError]. *)

Module Strptime.

Definition digit (c : ascii) : option Z :=
  let n := Z.of_N (N_of_ascii c) in
  if bool_decide (48 ≤ n ≤ 57) then Some (n - 48) else None.

Definition digit_in (lo hi : Z) (c : ascii) : option Z :=
  d ← digit c; if bool_decide (lo ≤ d ≤ hi) then Some d else None.

(** [(?P<Y>\d\d\d\d)-] *)
Definition match_Y (l : list ascii) : option (Z * list ascii) :=
  match l with
  | a :: b :: c :: d :: "-"%char :: r =>
      a ← digit a; b ← digit b; c ← digit c; d ← digit d;
      Some (1000 * a + 100 * b + 10 * c + d, r)
  | _ => None
  end.

(** [(?P<m>1[0-2]|0[1-9]|[1-9])-] *)
Definition match_m (l : list ascii) : option (Z * list ascii) :=
  let two :=
    match l with
    | "1"%char :: c :: "-"%char :: r => d ← digit_in 0 2 c; Some (10 + d, r)
    | "0"%char :: c :: "-"%char :: r => d ← digit_in 1 9 c; Some (d, r)
    | _ => None
    end in
  match two, l with
  | Some res, _ => Some res
  | None, c :: "-"%char :: r => d ← digit_in 1 9 c; Some (d, r)
  | None, _ => None
  end.

(** [(?P<d>3[01]|[12]\d|0[1-9]|[1-9]| [1-9])]: the first alternative that
    matches is taken, whatever follows. *)
Definition match_d (l : list ascii) : option (Z * list ascii) :=
  let alt1 :=
    match l with
    | "3"%char :: c :: r => d ← digit_in 0 1 c; Some (30 + d, r)
    | _ => None
    end in
  let alt2 :=
    match l with
    | a :: b :: r => a ← digit_in 1 2 a; b ← digit b; Some (10 * a + b, r)
    | _ => None
    end in
  let alt3 :=
    match l with
    | "0"%char :: c :: r => d ← digit_in 1 9 c; Some (d, r)
    | _ => None
    end in
  let alt4 :=
    match l with
    | c :: r => d ← digit_in 1 9 c; Some (d, r)
    | _ => None
    end in
  let alt5 :=
    match l with
    | " "%char :: c :: r => d ← digit_in 1 9 c; Some (d, r)
    | _ => None
    end in
  alt1 ∪ alt2 ∪ alt3 ∪ alt4 ∪ alt5.

Definition is_leap (y : Z) : bool :=
  bool_decide (y `mod` 4 = 0 ∧ (y `mod` 100 ≠ 0 ∨ y `mod` 400 = 0)).

Definition days_in_month (y m : Z) : Z :=
  if bool_decide (m = 2) then (if is_leap y then 29 else 28)
  else if bool_decide (m ∈ [4; 6; 9; 11]) then 30
  else 31.

(** The date [strptime] returns, or its [ValueError]. *)
Definition strptime_ymd (value : string) : Py.exc (Z * Z * Z) :=
  match match_Y (list_ascii_of_string value) with
  | None => Py.Raise (Py.ValueError "time data does not match format")
  | Some (y, r) =>
      match match_m r with
      | None => Py.Raise (Py.ValueError "time data does not match format")
      | Some (m, r) =>
          match match_d r with
          | None => Py.Raise (Py.ValueError "time data does not match format")
          | Some (d, []) =>
              if bool_decide (1 ≤ y ∧ d ≤ days_in_month y m)
              then Py.Ok (y, m, d)
              else Py.Raise (Py.ValueError "out of range")
          | Some (_, _ :: _) => Py.Raise (Py.ValueError "unconverted data remains")
          end
      end
  end.

End Strptime.

(** ** Data frames *)

Module Frame.
Import Py.

(** A row of the canonical table, before its identifier is assigned: the
    fifteen columns of [schema] in [transform_dataframe], in that order. *)
Record CanonRow : Type := {
  source : option string;
  topic : option string;
  concept : option string;
  variable : option string;
  label : option string;
  value : float;
  denominator_variable : option string;
  denominator_label : option string;
  denominator : float;
  year : option Z;
  year_date : option string;
  geo_id : option string;
  geo_name : option string;
  geo_type : option string;
  location : option string
}.

(** A row of the table that is validated and published. *)
Record Row : Type := {
  canon :> CanonRow;
  row_id : option string
}.

Abbreviation DataFrame := (list Row).

(** The row as [DataFrame.apply(f, axis=1)] passes it to [f]. *)
Definition canon_items (r : CanonRow) : Mapping :=
  [ ("source", of_str (source r));
    ("topic", of_str (topic r));
    ("concept", of_str (concept r));
    ("variable", of_str (variable r));
    ("label", of_str (label r));
    ("value", Float (value r));
    ("denominator_variable", of_str (denominator_variable r));
    ("denominator_label", of_str (denominator_label r));
    ("denominator", Float (denominator r));
    ("year", of_int (year r));
    ("year_date", of_str (year_date r));
    ("geo_id", of_str (geo_id r));
    ("geo_name", of_str (geo_name r));
    ("geo_type", of_str (geo_type r));
    ("location", of_str (location r)) ].

Definition row_items (r : Row) : Mapping :=
  (canon_items r ++ [("row_id", of_str (row_id r))])%list.

(** [dataframe.columns] of a [DataFrame]. *)
Definition columns : list string :=
  [ "source"; "topic"; "concept"; "variable"; "label"; "value";
    "denominator_variable"; "denominator_label"; "denominator"; "year";
    "year_date"; "geo_id"; "geo_name"; "geo_type"; "location"; "row_id" ].

(** [dataframe[name]]. *)
Definition column (dataframe : DataFrame) (name : string) : exc (list cell) :=
  if bool_decide (name ∈ columns)
  then map_exc (λ r, getitem (row_items r) name) dataframe
  else Raise (KeyError name).

(** [dataframe.loc[mask]] for a boolean mask aligned with the rows. *)
Fixpoint loc {A} (dataframe : list A) (mask : list bool) : list A :=
  match dataframe, mask with
  | r :: dataframe', b :: mask' =>
      if b then r :: loc dataframe' mask' else loc dataframe' mask'
  | _, _ => []
  end.

(** [series.isin(values)]; a null is in no list of strings. *)
Definition isin (series : list (option string)) (values : list string) : list bool :=
  map (λ c, from_option (λ s, bool_decide (s ∈ values)) false c) series.

(** [series <= n] and [series >= n]; a comparison with a null is false. *)
Definition series_le (series : list (option Z)) (n : Z) : list bool :=
  map (λ c, from_option (λ z, bool_decide (z ≤ n)) false c) series.
Definition series_ge (series : list (option Z)) (n : Z) : list bool :=
  map (λ c, from_option (λ z, bool_decide (z >= n)%Z) false c) series.

(** [a & b], [a | b] and [~a] on boolean series. *)
Definition series_and : list bool → list bool → list bool := zip_with andb.
Definition series_or : list bool → list bool → list bool := zip_with orb.
Definition series_not : list bool → list bool := map negb.

(** [row.notnull().all()]: the row holds a null in no column. *)
Definition no_null (r : Row) : bool :=
  forallb (λ item, notnull item.2) (row_items r).

(** [dataframe.dropna()]: the rows that hold no null, in order. *)
Definition dropna (dataframe : DataFrame) : DataFrame :=
  List.filter no_null dataframe.

End Frame.

(** ** The part of pandera the validator uses

    [DataFrameSchema.validate] checks, in this order: the column set when
    [strict]; every declared column (nulls, duplicates, dtype, then the
    column's checks on its non-null cells); the checks of the schema on the
    whole frame.  The first violation raises [SchemaError]; an exception of
    a check function is not caught and leaves [validate] as it is.

    A [Check] is built with [ignore_na=True] unless it is told otherwise:
    the rows that hold a null in any column are dropped from the frame
    before the check function of a schema-level check sees it.

    [coerce=True] casts every column to its dtype before these tests.  The
    columns of [Frame] are typed, and the cast changes no cell of a frame
    whose [year] column is an [int64] column (no null, every year within 64
    bits; [Spec.is_int64]).  On any other frame the cast of the [year]
    column raises, before the tests of that column are reached.  [validate]
    below models the tests, not the cast: on such a frame it raises the
    [SchemaError] of the tests of the [year] column.  Either way the frame
    is not accepted; what else happens to it is stated, further down, for
    the frames of [Spec.plain]. *)

Module Pandera.
Import Py Frame.

Inductive Dtype : Type := String_ | Int_ | Float_.

Definition has_dtype (t : Dtype) (c : cell) : bool :=
  match t, c with
  | String_, Str _ | Int_, Int _ | Float_, Float _ => true
  | _, _ => false
  end.

(** [Column(dtype, checks=..., nullable=..., allow_duplicates=...)]. *)
Record Column : Type := {
  dtype : Dtype;
  checks : list (cell → bool);
  nullable : bool;
  allow_duplicates : bool
}.

(** [Column(dtype)] with pandera's defaults. *)
Definition Column_ (t : Dtype) : Column :=
  {| dtype := t; checks := []; nullable := false; allow_duplicates := true |}.

(** [Check.less_than_or_equal_to(v)] and [Check.greater_than_or_equal_to(v)]. *)
Definition less_than_or_equal_to (max_value : Z) (c : cell) : bool :=
  match c with Int z => bool_decide (z ≤ max_value) | _ => false end.
Definition greater_than_or_equal_to (min_value : Z) (c : cell) : bool :=
  match c with Int z => bool_decide (z >= min_value)%Z | _ => false end.

(** [Check(fn, element_wise=True)] on a column of strings. *)
Definition element_wise (fn : string → bool) (c : cell) : bool :=
  match c with Str s => fn s | _ => false end.

(** [series.duplicated().any()]. *)
Fixpoint duplicated (series : list cell) : bool :=
  match series with
  | [] => false
  | c :: series' => existsb (cell_eqb c) series' || duplicated series'
  end.

Definition cell_ok (col : Column) (c : cell) : bool :=
  if notnull c
  then has_dtype (dtype col) c && forallb (λ chk, chk c) (checks col)
  else nullable col.

Definition validate_series (name : string) (col : Column) (series : list cell)
    : exc unit :=
  if negb (nullable col) && existsb (λ c, negb (notnull c)) series then
    Raise (SchemaError ("non-nullable series '" +:+ name +:+ "' contains null values"))
  else if negb (allow_duplicates col) && duplicated series then
    Raise (SchemaError ("series '" +:+ name +:+ "' contains duplicate values"))
  else if negb (forallb (has_dtype (dtype col)) (List.filter notnull series)) then
    Raise (SchemaError ("expected series '" +:+ name +:+ "' to have another type"))
  else if negb (forallb (λ chk, forallb chk (List.filter notnull series)) (checks col)) then
    Raise (SchemaError ("series '" +:+ name +:+ "' failed element-wise validator"))
  else Ok ().

(** The function of a check of the schema itself:
    [Check(fn, element_wise=True)] calls [fn] on every row, [Check(fn)]
    calls it once on the frame and expects a boolean series. *)
Inductive CheckFn : Type :=
| RowWise (fn : Mapping → exc bool)
| FrameWise (fn : DataFrame → exc (list bool)).

(** A check of the schema itself, with its [ignore_na] argument. *)
Record FrameCheck : Type := {
  check_fn : CheckFn;
  ignore_na : bool
}.

(** [Check(fn, ...)] with pandera's default, [ignore_na=True]. *)
Definition Check_ (fn : CheckFn) : FrameCheck :=
  {| check_fn := fn; ignore_na := true |}.

(** The check function applied to the frame it is given: the whole frame,
    or, with [ignore_na], its rows that hold no null. *)
Definition run_check (chk : FrameCheck) (dataframe : DataFrame) : exc (list bool) :=
  let check_obj := if ignore_na chk then dropna dataframe else dataframe in
  match check_fn chk with
  | RowWise fn => map_exc (λ r, fn (row_items r)) check_obj
  | FrameWise fn => fn check_obj
  end.

Record DataFrameSchema : Type := {
  schema_columns : list (string * Column);
  strict : bool;
  coerce : bool;
  schema_checks : list FrameCheck
}.

Definition validate_column (dataframe : DataFrame) (c : string * Column) : exc unit :=
  if bool_decide (c.1 ∈ Frame.columns)
  then series ← column dataframe c.1; validate_series c.1 c.2 series
  else Raise (SchemaError ("column '" +:+ c.1 +:+ "' not in dataframe")).

Definition validate_check (dataframe : DataFrame) (chk : FrameCheck) : exc unit :=
  result ← run_check chk dataframe;
  if forallb id result then Ok ()
  else Raise (SchemaError "DataFrameSchema failed series validator").

(** [schema.validate(dataframe)]. *)
Definition validate (schema : DataFrameSchema) (dataframe : DataFrame)
    : exc DataFrame :=
  if strict schema
     && negb (forallb (λ c, bool_decide (c ∈ (schema_columns schema).*1)) Frame.columns)
  then Raise (SchemaError "column not in DataFrameSchema")
  else
    _ ← map_exc (validate_column dataframe) (schema_columns schema);
    _ ← map_exc (validate_check dataframe) (schema_checks schema);
    Ok dataframe.

End Pandera.

(** ** What the pipeline takes from outside the repository *)

Module World.
Import Py Frame.

(** A row of the frame autocensus returns, with the columns
    [transform_dataframe] reads: [variable_code], [value], [year], [date],
    [name], [geometry], [geo_id], [geo_type]. *)
Record SourceRow (Geometry : Type) : Type := {
  raw_variable_code : option string;
  raw_value : float;
  raw_year : option Z;
  raw_date : option string;
  raw_name : option string;
  raw_geometry : Geometry;
  raw_geo_id : option string;
  raw_geo_type : option string
}.
Global Arguments raw_variable_code {Geometry} _.
Global Arguments raw_value {Geometry} _.
Global Arguments raw_year {Geometry} _.
Global Arguments raw_date {Geometry} _.
Global Arguments raw_name {Geometry} _.
Global Arguments raw_geometry {Geometry} _.
Global Arguments raw_geo_id {Geometry} _.
Global Arguments raw_geo_type {Geometry} _.

(** Modelled from the spec: a row of [sources/acs5_labels.csv], a file that
    is not in the repository: the key [variable] and the cleaned-up [topic],
    [concept] and [label] it is joined for (§4.1, §6).  The file can hold no
    other column of the frame: the merge would rename both copies and the
    selection of [schema] would raise [KeyError]. *)
Record LabelRow : Type := {
  label_variable : option string;
  label_topic : option string;
  label_concept : option string;
  label_label : option string
}.

(** The reply of [geomet.wkt.loads]: a [ValueError], or a GeoJSON [dict]
    with what its ["type"] entry holds, if anything. *)
Inductive wkt_result : Type :=
| WktValueError
| WktDict (type_ : option string).

Record Extern (Geometry : Type) : Type := {
  (** [str] of a float *)
  repr_float : float → string;
  (** [dt.now().year] *)
  now_year : Z;
  (** [geomet.wkt.loads] *)
  wkt_loads : string → wkt_result;
  (** [autocensus.geography.serialize_to_wkt]: a text, a null, or an exception *)
  serialize_to_wkt : Geometry → exc (option string);
  (** [pd.read_csv("sources/acs5_labels.csv")] *)
  acs5_labels : list LabelRow;
  (** [Query(...).run()] of autocensus *)
  query_run : exc (list (SourceRow Geometry));
  (** the revision URL the Socrata client returns for an upload, or its exception *)
  socrata_apply : DataFrame → exc string
}.
Global Arguments repr_float {Geometry} _.
Global Arguments now_year {Geometry} _.
Global Arguments wkt_loads {Geometry} _.
Global Arguments serialize_to_wkt {Geometry} _.
Global Arguments acs5_labels {Geometry} _.
Global Arguments query_run {Geometry} _.
Global Arguments socrata_apply {Geometry} _.

End World.

(** ** [sources/acs5.py] *)

Module Acs5.
Import Py Frame World.

Section Acs5.
Context {Geometry : Type} (E : Extern Geometry).

(** The frame after the block under [# Transform data]: the columns that
    block assigns, and the source columns the schema keeps. *)
Definition transform_data (r : SourceRow Geometry) (wkt : option string) : CanonRow :=
  {| source := Some "ACS5";
     variable := raw_variable_code r;
     value := raw_value r;
     denominator_variable := None;
     denominator_label := None;
     denominator := PrimFloat.nan;
     year_date := raw_date r;
     geo_name := raw_name r;
     location := wkt;
     year := raw_year r;
     geo_id := raw_geo_id r;
     geo_type := raw_geo_type r;
     (* not yet columns of the frame: the merge brings them *)
     topic := None;
     concept := None;
     label := None |}.

(** A row of the merged frame: the columns of [r] and the label columns of
    the matching row of [labels], null when there is none. *)
Definition with_labels (r : CanonRow) (l : option LabelRow) : CanonRow :=
  {| source := source r;
     topic := l ≫= label_topic;
     concept := l ≫= label_concept;
     variable := variable r;
     label := l ≫= label_label;
     value := value r;
     denominator_variable := denominator_variable r;
     denominator_label := denominator_label r;
     denominator := denominator r;
     year := year r;
     year_date := year_date r;
     geo_id := geo_id r;
     geo_name := geo_name r;
     geo_type := geo_type r;
     location := location r |}.

(** [dataframe.merge(labels, how="left", on="variable")]: every row of
    [dataframe], in order, once per row of [labels] with the same key (null
    keys match each other), or once with null label columns if there is
    none. *)
Definition merge_left (dataframe : list CanonRow) (labels : list LabelRow)
    : list CanonRow :=
  flat_map
    (λ r,
      match List.filter (λ l, bool_decide (label_variable l = variable r)) labels with
      | [] => [with_labels r None]
      | matches => map (λ l, with_labels r (Some l)) matches
      end)
    dataframe.

Definition transform_dataframe (source_dataframe : list (SourceRow Geometry))
    : exc (list CanonRow) :=
  let dataframe := source_dataframe in
  (* Drop rows for variables that changed meaning across years *)
  let dataframe :=
    loc dataframe
      (series_not
        (series_or
          (series_and
            (isin (map raw_variable_code dataframe) ["DP05_0018E"; "S0101_C01_028E"])
            (series_le (map raw_year dataframe) 2016))
          (series_and
            (isin (map raw_variable_code dataframe) ["DP05_0017E"; "S0101_C01_026E"])
            (series_ge (map raw_year dataframe) 2017)))) in
  (* Transform data *)
  location ← map_exc (serialize_to_wkt E) (map raw_geometry dataframe);
  let dataframe := zip_with transform_data dataframe location in
  (* Load in cleaned-up topics, concepts, labels *)
  let labels := acs5_labels E in
  let dataframe := merge_left dataframe labels in
  (* Adopt schema and drop any other columns: a [CanonRow] holds the
     columns of [schema] and no other *)
  (* Drop rows with null values *)
  let dataframe := loc dataframe (map (λ r, notnull (Float (value r))) dataframe) in
  Ok dataframe.

(** The debug messages of this module are below its logger's level. *)
Definition get_source_acs5 : exc (list CanonRow) :=
  dataframe ← query_run E;
  transform_dataframe dataframe.

End Acs5.
End Acs5.

(** ** [update_socrata_dataset.py] *)

Module UpdateSocrataDataset.
Import Py Frame World Pandera.

(** The state the script changes: the lines its logger wrote, and the
    frames handed to the Socrata client. *)
Inductive level : Type := INFO | WARNING.

Record State : Type := {
  logged : list (level * string);
  uploaded : list DataFrame
}.

Definition M (A : Type) : Type := State → State * exc A.

Global Instance M_ret : MRet M := λ A a st, (st, Ok a).
Global Instance M_bind : MBind M := λ A B f m st,
  match m st with
  | (st', Ok a) => f a st'
  | (st', Raise e) => (st', Raise e)
  end.

Definition lift {A} (m : exc A) : M A := λ st, (st, m).

Definition logger_info (msg : string) : M unit := λ st,
  ({| logged := logged st ++ [(INFO, msg)]; uploaded := uploaded st |}, Ok ()).
Definition logger_warning (msg : string) : M unit := λ st,
  ({| logged := logged st ++ [(WARNING, msg)]; uploaded := uploaded st |}, Ok ()).

Definition DATASET_ID : string := "enbi-fu9w".

Section UpdateSocrataDataset.
Context {Geometry : Type} (E : Extern Geometry).

(** [strptime_ymd] raises nothing but [ValueError]. *)
Definition validate_year_date (value : string) : bool :=
  match Strptime.strptime_ymd value with
  | Raise _ => false
  | Ok _ => true
  end.

Definition validate_location (value : string) : bool :=
  match wkt_loads E value with
  | WktValueError => false
  | WktDict type_ => bool_decide (type_ = Some "Point")
  end.

Definition id_fields : list string :=
  ["source"; "variable"; "denominator_variable"; "year"; "geo_id"].

Definition row_id_template : string :=
  join "|" (map (λ id_field, "{" +:+ id_field +:+ "}") id_fields).

(** The loop of [make_row_id] that fills [row_values]. *)
Fixpoint fill_row_values (row : Mapping) (fields : list string)
    (row_values : Mapping) : exc Mapping :=
  match fields with
  | [] => Ok row_values
  | id_field :: fields' =>
      v ← getitem row id_field;
      let value_is_not_null := notnull v in
      fill_row_values row fields'
        (setitem row_values id_field (if value_is_not_null then v else Str ""))
  end.

Definition make_row_id (row : Mapping) : exc string :=
  row_values ← fill_row_values row id_fields [];
  format_map (repr_float E) row_id_template row_values.

Definition assign_row_id (dataframe : list CanonRow) : exc DataFrame :=
  row_id ← map_exc (λ r, make_row_id (canon_items r)) dataframe;
  Ok (zip_with (λ r i, {| canon := r; row_id := Some i |}) dataframe row_id).

(** [x[:4]] on a cell of a row: a text has a slice, a number or a null has
    none. *)
Definition slice_4 (x : cell) : exc string :=
  match x with
  | Str s => Ok (take_str 4 s)
  | _ => Raise (TypeError "object is not subscriptable")
  end.

(** [x.astype(str)] on a cell of a row.  The check being element-wise, the
    cell is a Python scalar (a [str], an [int], a [float], a null), and none
    of these has an attribute [astype]. *)
Definition astype_str (x : cell) : exc string :=
  Raise (AttributeError "object has no attribute 'astype'").

(** [lambda df: df["year_date"][:4] == df["year"].astype(str)] on one row:
    the left operand first, then the right one, then the comparison, which
    is never reached. *)
Definition check_year_date (df : Mapping) : exc bool :=
  year_date ← getitem df "year_date";
  prefix ← slice_4 year_date;
  year ← getitem df "year";
  text ← astype_str year;
  Ok (bool_decide (prefix = text)).

(** [lambda df: df["row_id"] == df.apply(make_row_id, axis=1)]. *)
Definition check_row_id (df : DataFrame) : exc (list bool) :=
  row_id ← column df "row_id";
  expected ← map_exc (λ r, make_row_id (row_items r)) df;
  Ok (zip_with
        (λ stored e, match stored with Str s => bool_decide (s = e) | _ => false end)
        row_id expected).

Definition schema : DataFrameSchema :=
  {| schema_columns :=
       [ ("source", Column_ String_);
         ("topic", {| dtype := String_; checks := []; nullable := true;
                      allow_duplicates := true |});
         ("concept", {| dtype := String_; checks := []; nullable := true;
                        allow_duplicates := true |});
         ("variable", Column_ String_);
         ("label", Column_ String_);
         ("value", Column_ Float_);
         ("denominator_variable",
           {| dtype := String_; checks := []; nullable := true;
              allow_duplicates := true |});
         ("denominator_label",
           {| dtype := String_; checks := []; nullable := true;
              allow_duplicates := true |});
         ("denominator", {| dtype := Float_; checks := []; nullable := true;
                            allow_duplicates := true |});
         ("year", {| dtype := Int_;
                     checks := [ less_than_or_equal_to (now_year E);
                                 greater_than_or_equal_to 2000 ];
                     nullable := false; allow_duplicates := true |});
         ("year_date", {| dtype := String_;
                          checks := [element_wise validate_year_date];
                          nullable := false; allow_duplicates := true |});
         ("geo_id", Column_ String_);
         ("geo_name", Column_ String_);
         ("geo_type", Column_ String_);
         ("location", {| dtype := String_;
                         checks := [element_wise validate_location];
                         nullable := false; allow_duplicates := true |});
         ("row_id", {| dtype := String_; checks := []; nullable := false;
                       allow_duplicates := false |}) ];
     strict := true;
     coerce := true;
     schema_checks :=
       [ (* year_date and year fields are aligned *)
         Check_ (RowWise check_year_date);
         (* row_id field concatenates other identifying fields as expected *)
         Check_ (FrameWise check_row_id) ] |}.

Definition validate_dataframe (dataframe : DataFrame) : M bool :=
  match Pandera.validate schema dataframe with
  | Raise (SchemaError msg) =>
      _ ← logger_warning ("Failed to validate dataframe: " +:+ msg);
      mret false
  | Raise e => lift (Raise e)
  | Ok _ => mret true
  end.

(** The Socrata client receives [dataframe]; its reply is the revision URL. *)
Definition update_socrata_dataset (dataframe : DataFrame) : M string := λ st,
  ({| logged := logged st; uploaded := uploaded st ++ [dataframe] |},
   socrata_apply E dataframe).

(** The loop of [main] over [sources.items()]; a source function is the
    outcome of calling it. *)
Fixpoint main_loop (sources : list (string * exc (list CanonRow))) : M unit :=
  match sources with
  | [] => mret ()
  | (source_name, source_function) :: sources' =>
      _ ← logger_info ("Getting data for source " +:+ source_name);
      dataframe ← lift source_function;
      dataframe ← lift (assign_row_id dataframe);
      _ ← logger_info ("Validating dataframe for source " +:+ source_name);
      dataframe_is_valid ← validate_dataframe dataframe;
      if negb dataframe_is_valid then
        _ ← logger_warning "Validation failed; skipping to next source";
        main_loop sources'
      else
        _ ← logger_info ("Updating Socrata dataset for source " +:+ source_name
                         +:+ ": " +:+ DATASET_ID);
        revision_url ← update_socrata_dataset dataframe;
        _ ← logger_info ("Updated Socrata dataset; revision will be published soon: "
                         +:+ revision_url);
        main_loop sources'
  end.

Definition main : M unit :=
  let sources := [("ACS5", Acs5.get_source_acs5 E)] in
  main_loop sources.

End UpdateSocrataDataset.

(** The exit status of [python update_socrata_dataset.py]: zero when [main]
    returns, one when an exception leaves it. *)
Definition exit_status (outcome : exc unit) : Z :=
  match outcome with
  | Ok _ => 0
  | Raise _ => 1
  end.

Definition start : State := {| logged := []; uploaded := [] |}.

End UpdateSocrataDataset.

(** ** The vocabulary of the statements *)

Module Spec.
Import Py Frame World Pandera UpdateSocrataDataset.

(** The string form of an identity field; a null is the empty string. *)
Definition text (o : option string) : string := default "" o.
Definition year_text (o : option Z) : string := from_option pretty "" o.

(** The identity of §4.2 in the specification's words: the string forms of
    [source], [variable], [denominator_variable], [year], [geo_id], in this
    order, joined by ["|"]. *)
Definition spec_row_id (r : CanonRow) : string :=
  join "|" [ text (source r); text (variable r); text (denominator_variable r);
             year_text (year r); text (geo_id r) ].

(** The boundary rule of §4.1 in the specification's words, at boundary
    year 2017: the superseded codes and their successors. *)
Definition old_codes : list string := ["DP05_0017E"; "S0101_C01_026E"].
Definition new_codes : list string := ["DP05_0018E"; "S0101_C01_028E"].

Definition superseded (code : option string) (year : option Z) : Prop :=
  ∃ c y, code = Some c ∧ year = Some y ∧
    ((c ∈ old_codes ∧ 2017 ≤ y) ∨ (c ∈ new_codes ∧ y < 2017)).

(** The mask of the first step of [transform_dataframe], before its
    negation, on one row. *)
Definition changed_meaning {Geometry} (s : SourceRow Geometry) : bool :=
  (from_option (λ c, bool_decide (c ∈ ["DP05_0018E"; "S0101_C01_028E"])) false
     (raw_variable_code s)
   && from_option (λ y, bool_decide (y ≤ 2016)) false (raw_year s))
  || (from_option (λ c, bool_decide (c ∈ ["DP05_0017E"; "S0101_C01_026E"])) false
        (raw_variable_code s)
      && from_option (λ y, bool_decide (y >= 2017)%Z) false (raw_year s)).

(** A column of ASCII texts: in such a text, what [strptime] takes for a
    digit is one of the ten ASCII digits. *)
Definition is_ascii (s : string) : bool :=
  forallb (λ c, bool_decide (N_of_ascii c < 128)%N) (list_ascii_of_string s).
Definition ascii_texts (texts : list (option string)) : bool :=
  forallb (λ o, from_option is_ascii true o) texts.

(** A [year] column that is an [int64] column: it holds no null, and every
    year is within 64 bits.  The cast of [coerce=True] leaves it as it is. *)
Definition is_int64 (o : option Z) : bool :=
  from_option (λ y, bool_decide (- 2 ^ 63 ≤ y < 2 ^ 63)) false o.
Definition years_int64 (years : list (option Z)) : bool := forallb is_int64 years.

(** A plain frame: its [year] column is an [int64] column and its
    [year_date] column holds ASCII texts.  These are the frames on which
    the statements tell an answer [False] of the validator from an
    exception. *)
Definition plain (dataframe : list CanonRow) : bool :=
  years_int64 (map year dataframe) && ascii_texts (map year_date dataframe).

(** The cell of [r] in the column [name]. *)
Definition cell_at (r : Row) (name : string) : cell :=
  default NA (assoc name (row_items r)).

(** [series] of the column [c] of [dataframe]. *)
Definition series_of (dataframe : DataFrame) (name : string) : list cell :=
  map (λ r, cell_at r name) dataframe.

(** Every cell of the column meets the column's constraints, and the column
    has no duplicates unless it may. *)
Definition column_valid (dataframe : DataFrame) (c : string * Column) : Prop :=
  Forall (λ r, cell_ok c.2 (cell_at r c.1) = true) dataframe
  ∧ (allow_duplicates c.2 = true ∨ duplicated (series_of dataframe c.1) = false).

Definition series_ok (col : Column) (series : list cell) : bool :=
  forallb (cell_ok col) series && (allow_duplicates col || negb (duplicated series)).

Section Spec.
Context {Geometry : Type} (E : Extern Geometry).

(** Every declared column of the schema is valid. *)
Definition columns_valid (dataframe : DataFrame) : Prop :=
  ∀ c, c ∈ schema_columns (schema E) → column_valid dataframe c.

(** The same, as a test. *)
Definition columns_ok (dataframe : DataFrame) : bool :=
  forallb (λ c, series_ok c.2 (series_of dataframe c.1)) (schema_columns (schema E)).

(** What [transform_dataframe] makes of a source row, the serialized
    geometry and the label columns being given. *)
Definition canonical_of (s : SourceRow Geometry) (wkt : option string)
    (l : option LabelRow) (r : CanonRow) : Prop :=
  source r = Some "ACS5"
  ∧ variable r = raw_variable_code s
  ∧ value r = raw_value s
  ∧ year r = raw_year s
  ∧ year_date r = raw_date s
  ∧ geo_id r = raw_geo_id s
  ∧ geo_name r = raw_name s
  ∧ geo_type r = raw_geo_type s
  ∧ location r = wkt
  ∧ topic r = l ≫= label_topic
  ∧ concept r = l ≫= label_concept
  ∧ label r = l ≫= label_label
  ∧ denominator_variable r = None
  ∧ denominator_label r = None
  ∧ PrimFloat.is_nan (denominator r) = true.

End Spec.
End Spec.

(** ** A small environment on which the statements are evaluated *)

Module Fixture.
Import Py Frame World Pandera UpdateSocrataDataset.

(** A point, or [None] for a geometry that has no text form. *)
Definition Geometry : Type := option (Z * Z).

Definition to_wkt (g : Geometry) : option string :=
  '(x, y) ← g; Some ("POINT (" +:+ pretty x +:+ " " +:+ pretty y +:+ ")").

Definition loads (s : string) : wkt_result :=
  if bool_decide (take_str 5 s = "POINT") then WktDict (Some "Point")
  else if bool_decide (take_str 7 s = "POLYGON") then WktDict (Some "Polygon")
  else WktValueError.

Definition labels : list LabelRow :=
  [ {| label_variable := Some "DP05_0017E"; label_topic := Some "Age";
       label_concept := Some "Median age"; label_label := Some "Median age" |};
    {| label_variable := Some "DP05_0018E"; label_topic := Some "Age";
       label_concept := Some "Median age"; label_label := Some "Median age" |};
    {| label_variable := Some "DP05_0002E"; label_topic := Some "Sex";
       label_concept := Some "Population by sex"; label_label := Some "Male" |} ].

Definition raw (code : string) (v : float) (y : Z) (g : Geometry)
    : SourceRow Geometry :=
  {| raw_variable_code := Some code; raw_value := v; raw_year := Some y;
     raw_date := Some (pretty y +:+ "-01-01");
     raw_name := Some "Autauga County, Alabama"; raw_geometry := g;
     raw_geo_id := Some "0500000US01001"; raw_geo_type := Some "county" |}.

Definition old_2016 := raw "DP05_0017E" 37.5%float 2016 (Some (-86, 32)).
Definition old_2017 := raw "DP05_0017E" 38.5%float 2017 (Some (-86, 32)).
Definition new_2016 := raw "DP05_0018E" 37.5%float 2016 (Some (-86, 32)).
Definition new_2017 := raw "DP05_0018E" 38.5%float 2017 (Some (-86, 32)).
Definition male_2018 := raw "DP05_0002E" 26874%float 2018 (Some (-86, 32)).
Definition male_null := raw "DP05_0002E" PrimFloat.nan 2017 (Some (-86, 32)).
Definition male_no_geometry := raw "DP05_0002E" 26874%float 2018 None.

Definition source_rows : list (SourceRow Geometry) :=
  [old_2016; old_2017; new_2016; new_2017; male_2018; male_null].

(** The environment: the serializer answers a null for a geometry without
    text form. *)
Definition env (rows : exc (list (SourceRow Geometry))) : Extern Geometry :=
  {| repr_float := λ _, "nan";
     now_year := 2020;
     wkt_loads := loads;
     serialize_to_wkt := λ g, Ok (to_wkt g);
     acs5_labels := labels;
     query_run := rows;
     socrata_apply := λ _, Ok "https://nhit-odp.data.socrata.com/d/enbi-fu9w/revisions/1" |}.

Definition online : Extern Geometry := env (Ok source_rows).



(** The Socrata client fails to apply the revision. *)
Definition upload_fails : Extern Geometry :=
  {| repr_float := repr_float online;
     now_year := now_year online;
     wkt_loads := wkt_loads online;
     serialize_to_wkt := serialize_to_wkt online;
     acs5_labels := labels;
     query_run := query_run online;
     socrata_apply := λ _, Raise (ExternalError "HTTP 503") |}.

(** A canonical row as the transform produces it, and variations of it. *)
Definition good : CanonRow :=
  {| source := Some "ACS5"; topic := Some "Sex"; concept := Some "Population by sex";
     variable := Some "DP05_0002E"; label := Some "Male"; value := 26874%float;
     denominator_variable := None; denominator_label := None;
     denominator := PrimFloat.nan; year := Some 2018;
     year_date := Some "2018-01-01"; geo_id := Some "0500000US01001";
     geo_name := Some "Autauga County, Alabama"; geo_type := Some "county";
     location := Some "POINT (-86 32)" |}.

Definition with_value (r : CanonRow) (v : float) : CanonRow :=
  {| source := source r; topic := topic r; concept := concept r;
     variable := variable r; label := label r; value := v;
     denominator_variable := denominator_variable r;
     denominator_label := denominator_label r; denominator := denominator r;
     year := year r; year_date := year_date r; geo_id := geo_id r;
     geo_name := geo_name r; geo_type := geo_type r; location := location r |}.

Definition with_year_date (r : CanonRow) (d : string) : CanonRow :=
  {| source := source r; topic := topic r; concept := concept r;
     variable := variable r; label := label r; value := value r;
     denominator_variable := denominator_variable r;
     denominator_label := denominator_label r; denominator := denominator r;
     year := year r; year_date := Some d; geo_id := geo_id r;
     geo_name := geo_name r; geo_type := geo_type r; location := location r |}.

Definition with_geo_id (r : CanonRow) (g : string) : CanonRow :=
  {| source := source r; topic := topic r; concept := concept r;
     variable := variable r; label := label r; value := value r;
     denominator_variable := denominator_variable r;
     denominator_label := denominator_label r; denominator := denominator r;
     year := year r; year_date := year_date r; geo_id := Some g;
     geo_name := geo_name r; geo_type := geo_type r; location := location r |}.

Definition keyed (r : CanonRow) (i : string) : Row :=
  {| canon := r; row_id := Some i |}.

(** Two sources for the loop of [main]: in the first, one of two rows has
    no location. *)
Definition flawed_source : exc (list CanonRow) :=
  Acs5.transform_dataframe online [male_no_geometry; male_2018].

Definition two_sources : list (string * exc (list CanonRow)) :=
  [("ACS5-flawed", flawed_source); ("ACS5", Acs5.get_source_acs5 online)].

Definition good_id : string := "ACS5|DP05_0002E||2018|0500000US01001".
Definition other_id : string := "ACS5|DP05_0002E||2018|0500000US01003".

End Fixture.

(** ** What the validator asks of one row, column by column *)

Module Contract.
Import Py Frame World Pandera UpdateSocrataDataset Spec.

Section Contract.
Context {Geometry : Type} (E : Extern Geometry).

Definition row_ok (r : Row) : Prop :=
  is_Some (source r)
  ∧ is_Some (variable r)
  ∧ is_Some (label r)
  ∧ PrimFloat.is_nan (value r) = false
  ∧ (∃ y, year r = Some y ∧ 2000 ≤ y ≤ now_year E)
  ∧ (∃ d, year_date r = Some d ∧ validate_year_date d = true)
  ∧ is_Some (geo_id r)
  ∧ is_Some (geo_name r)
  ∧ is_Some (geo_type r)
  ∧ (∃ l, location r = Some l ∧ validate_location E l = true)
  ∧ is_Some (row_id r).

End Contract.

(** One of the columns that admit a null holds one. *)
Definition optional_null (r : Row) : Prop :=
  topic r = None
  ∨ concept r = None
  ∨ denominator_variable r = None
  ∨ denominator_label r = None
  ∨ PrimFloat.is_nan (denominator r) = true.

(** The columns that [transform_dataframe] copies from the source: the
    variable code, the value, the year, the date, the name and the
    geographic identifier and type, as the source has them and as the output
    has them. *)
Definition copied_of_source {Geometry} (s : SourceRow Geometry) :=
  (raw_variable_code s, raw_value s, raw_year s, raw_date s, raw_name s,
   raw_geo_id s, raw_geo_type s).
Definition copied_of_output (r : CanonRow) :=
  (variable r, value r, year r, year_date r, geo_name r, geo_id r, geo_type r).

(** A field that does not hold the separator of the identifier. *)
Definition bar_free (o : option string) : Prop :=
  "|"%char ∉ list_ascii_of_string (text o).

End Contract.

(** ** Calendar dates as text *)

Module Dates.

(** How the day of the month is written: as it is, with a leading zero, or
    with a leading space. *)
Inductive padding : Type := Bare | Zero | Blank.

Definition digit_char (d : Z) : ascii := ascii_of_N (Z.to_N (48 + d)).

(** The four digits of a year. *)
Definition four (y : Z) : string :=
  String (digit_char (y `div` 1000))
    (String (digit_char ((y `div` 100) `mod` 10))
      (String (digit_char ((y `div` 10) `mod` 10))
        (String (digit_char (y `mod` 10)) ""))).

(** A month or a day: two digits from 10 on, below 10 one digit with the
    padding asked for. *)
Definition two (n : Z) (p : padding) : string :=
  if bool_decide (10 ≤ n) then
    String (digit_char (n `div` 10)) (String (digit_char (n `mod` 10)) "")
  else
    match p with
    | Bare => String (digit_char n) ""
    | Zero => String "0" (String (digit_char n) "")
    | Blank => String " " (String (digit_char n) "")
    end.

(** A month takes no leading space. *)
Definition month_padding (p : bool) : padding := if p then Zero else Bare.

Definition date_text (y m d : Z) (pad_month : bool) (pad_day : padding) : string :=
  four y +:+ "-" +:+ two m (month_padding pad_month) +:+ "-" +:+ two d pad_day.

(** [date(y, m, d).isoformat()]. *)
Definition isoformat (y m d : Z) : string := date_text y m d true Zero.

Definition is_date (y m d : Z) : Prop :=
  1 ≤ y ≤ 9999 ∧ 1 ≤ m ≤ 12 ∧ 1 ≤ d ≤ Strptime.days_in_month y m.

End Dates.

(** ** More rows and mappings to evaluate the statements on *)

Module Cases.
Import Py Frame World Pandera UpdateSocrataDataset.

(** A row mapping without the column [geo_id]. *)
Definition no_geo_id : Mapping :=
  [ ("source", Str "ACS5"); ("variable", Str "DP05_0002E");
    ("denominator_variable", NA); ("year", Int 2018) ].

(** A variable that [Fixture.labels] does not list. *)
Definition female_2018 : SourceRow Fixture.Geometry :=
  Fixture.raw "DP05_0003E" 28000%float 2018 (Some (-86, 32)).

Definition elsewhere : Row :=
  Fixture.keyed (Fixture.with_geo_id Fixture.good "0500000US01003") Fixture.other_id.

(** The row [Fixture.good] with an identifier that is not the one of its
    identity fields. *)
Definition stale : Row := Fixture.keyed Fixture.good Fixture.other_id.

(** The row [Fixture.good], of year 2018, dated in 2019. *)
Definition late : Row :=
  Fixture.keyed (Fixture.with_year_date Fixture.good "2019-01-01") Fixture.good_id.

(** A row that holds no null: a share of a total, with its denominator. *)
Definition whole_canon : CanonRow :=
  {| source := Some "ACS5"; topic := Some "Sex"; concept := Some "Population by sex";
     variable := Some "DP05_0002E"; label := Some "Male"; value := 26874%float;
     denominator_variable := Some "DP05_0001E";
     denominator_label := Some "Total population"; denominator := 55200%float;
     year := Some 2018; year_date := Some "2018-01-01";
     geo_id := Some "0500000US01001"; geo_name := Some "Autauga County, Alabama";
     geo_type := Some "county"; location := Some "POINT (-86 32)" |}.

Definition whole : Row :=
  Fixture.keyed whole_canon "ACS5|DP05_0002E|DP05_0001E|2018|0500000US01001".

(** A record of the Census query of year 2018, dated in 2019, and the
    environment in which the query returns that record alone. *)
Definition late_record : SourceRow Fixture.Geometry :=
  {| raw_variable_code := Some "DP05_0002E"; raw_value := 26874%float;
     raw_year := Some 2018; raw_date := Some "2019-01-01";
     raw_name := Some "Autauga County, Alabama"; raw_geometry := Some (-86, 32);
     raw_geo_id := Some "0500000US01001"; raw_geo_type := Some "county" |}.

Definition late_census : Extern Fixture.Geometry := Fixture.env (Ok [late_record]).

(** Two sources for the loop of [main]: the first has a row that holds no
    null. *)
Definition whole_first : list (string * exc (list CanonRow)) :=
  [("shares", Ok [whole_canon]); ("ACS5", Acs5.get_source_acs5 Fixture.online)].


End Cases.

(** * Properties *)

(** ** Exceptions, strings and mappings *)

Section PyFacts.
Import Py.

Lemma append_empty_r (s : string) : s +:+ "" = s.
Proof.
  induction s as [|c s IH]; [done|].
  change (String c (s +:+ "") = String c s). by rewrite IH.
Qed.

Lemma zip_with_map {A B C D} (f : B → C → D) (g : A → B) (h : A → C) (l : list A) :
  zip_with f (map g l) (map h l) = map (λ x, f (g x) (h x)) l.
Proof. induction l as [|x l IH]; [done|]. cbn. by rewrite IH. Qed.

Lemma map_exc_total {A B} (f : A → exc B) (g : A → B) (l : list A) :
  (∀ x, x ∈ l → f x = Ok (g x)) → map_exc f l = Ok (map g l).
Proof.
  induction l as [|x l IH]; intros Hf; [done|].
  cbn. rewrite (Hf x) by constructor. cbn.
  rewrite IH; [done|]. intros y Hy. apply Hf. by constructor.
Qed.

Lemma map_exc_Ok_inv {A B} (f : A → exc B) (l : list A) (ys : list B) :
  map_exc f l = Ok ys → Forall2 (λ x y, f x = Ok y) l ys.
Proof.
  revert ys. induction l as [|x l IH]; intros ys; cbn.
  - intros [= <-]. constructor.
  - destruct (f x) as [y|e] eqn:Hx; cbn; [|done].
    destruct (map_exc f l) as [ys'|e]; cbn; [|done].
    intros [= <-]. constructor; auto.
Qed.



End PyFacts.

(** ** The row identifier *)

Section RowId.
Import Py Frame World Pandera UpdateSocrataDataset Spec.
Context {Geometry : Type} (E : Extern Geometry).

Lemma format_template (a b c d e : cell) :
  format_map (repr_float E) row_id_template
    [ ("source", a); ("variable", b); ("denominator_variable", c);
      ("year", d); ("geo_id", e) ]
  = Ok (str (repr_float E) a +:+ "|" +:+ str (repr_float E) b +:+ "|"
        +:+ str (repr_float E) c +:+ "|" +:+ str (repr_float E) d +:+ "|"
        +:+ str (repr_float E) e).
Proof.
  rewrite <- (append_empty_r (str (repr_float E) e)).
  lazy -[str]. reflexivity.
Qed.

(** The string a cell contributes to the identifier. *)
Lemma str_of_str (o : option string) :
  str (repr_float E) (if notnull (of_str o) then of_str o else Str "") = text o.
Proof. by destruct o. Qed.

Lemma str_of_int (o : option Z) :
  str (repr_float E) (if notnull (of_int o) then of_int o else Str "") = year_text o.
Proof. by destruct o. Qed.

(** [make_row_id] depends on the five identity cells of the mapping only. *)
Lemma make_row_id_cells (row : Mapping) (a b c d e : cell) :
  assoc "source" row = Some a →
  assoc "variable" row = Some b →
  assoc "denominator_variable" row = Some c →
  assoc "year" row = Some d →
  assoc "geo_id" row = Some e →
  make_row_id E row =
    format_map (repr_float E) row_id_template
      [ ("source", if notnull a then a else Str "");
        ("variable", if notnull b then b else Str "");
        ("denominator_variable", if notnull c then c else Str "");
        ("year", if notnull d then d else Str "");
        ("geo_id", if notnull e then e else Str "") ].
Proof.
  intros Ha Hb Hc Hd He. unfold make_row_id, id_fields, fill_row_values, getitem.
  rewrite Ha, Hb, Hc, Hd, He. reflexivity.
Qed.

Lemma make_row_id_canon (r : CanonRow) :
  make_row_id E (canon_items r) = Ok (spec_row_id r).
Proof.
  rewrite (make_row_id_cells _ (of_str (source r)) (of_str (variable r))
             (of_str (denominator_variable r)) (of_int (year r))
             (of_str (geo_id r))) by reflexivity.
  rewrite format_template, !str_of_str, str_of_int. reflexivity.
Qed.

Lemma make_row_id_row (r : Row) :
  make_row_id E (row_items r) = Ok (spec_row_id r).
Proof.
  rewrite (make_row_id_cells _ (of_str (source r)) (of_str (variable r))
             (of_str (denominator_variable r)) (of_int (year r))
             (of_str (geo_id r))) by reflexivity.
  rewrite format_template, !str_of_str, str_of_int. reflexivity.
Qed.

Lemma assign_row_id_total (dataframe : list CanonRow) :
  assign_row_id E dataframe
  = Ok (map (λ r, {| canon := r; row_id := Some (spec_row_id r) |}) dataframe).
Proof.
  unfold assign_row_id.
  rewrite (map_exc_total _ spec_row_id) by (intros; apply make_row_id_canon).
  cbn [mbind exc_bind]. f_equal.
  rewrite <- (map_id dataframe) at 1. by rewrite zip_with_map.
Qed.

End RowId.

(** ** Claims on the identity assigner *)

Section IdentityClaims.
Import Py Frame World Pandera UpdateSocrataDataset Spec.

(** C2. The identifier does not depend on [value], [label] or [year_date]
    (nor on any column other than the five identity fields): two rows that
    agree on [source], [variable], [denominator_variable], [year] and
    [geo_id] are given the same identifier, whatever their other cells. *)
Theorem row_id_collides_on_identity_fields
    {Geometry : Type} (E : Extern Geometry) (r1 r2 : CanonRow) :
  source r1 = source r2 →
  variable r1 = variable r2 →
  denominator_variable r1 = denominator_variable r2 →
  year r1 = year r2 →
  geo_id r1 = geo_id r2 →
  ∃ i, make_row_id E (canon_items r1) = Ok i
       ∧ make_row_id E (canon_items r2) = Ok i.
Proof.
  intros Hs Hv Hd Hy Hg. exists (spec_row_id r1).
  rewrite !make_row_id_canon. split; [done|].
  unfold spec_row_id. by rewrite Hs, Hv, Hd, Hy, Hg.
Qed.

Lemma row_id_collides_on_identity_fields_witness :
  let r1 := Fixture.good in
  let r2 := Fixture.with_year_date (Fixture.with_value Fixture.good 1%float)
              "2018-06-30" in
  PrimFloat.eqb (value r1) (value r2) = false
  ∧ year_date r1 ≠ year_date r2
  ∧ ∃ i, make_row_id Fixture.online (canon_items r1) = Ok i
         ∧ make_row_id Fixture.online (canon_items r2) = Ok i.
Proof.
  split; [reflexivity|]. split; [discriminate|].
  apply (row_id_collides_on_identity_fields Fixture.online); reflexivity.
Defined.

End IdentityClaims.

(** ** The validator *)

Section SeriesFacts.
Import Py Frame World Pandera UpdateSocrataDataset Spec.

Lemma forallb_and {A} (p q : A → bool) (l : list A) :
  forallb (λ x, p x && q x) l = forallb p l && forallb q l.
Proof.
  induction l as [|x l IH]; [done|]. cbn. rewrite IH.
  destruct (p x), (q x), (forallb p l); done.
Qed.

(** The three passes of [validate_series] over the cells amount to one pass
    with [cell_ok]. *)
Lemma forallb_cell_ok (col : Column) (series : list cell) :
  forallb (cell_ok col) series
  = (nullable col || negb (existsb (λ c, negb (notnull c)) series))
    && forallb (has_dtype (dtype col)) (List.filter notnull series)
    && forallb (λ chk, forallb chk (List.filter notnull series)) (checks col).
Proof.
  induction series as [|c l IH]; cbn.
  - destruct (nullable col); cbn; symmetry; apply forallb_forall; done.
  - rewrite IH. unfold cell_ok at 1. destruct (notnull c) eqn:Hc; cbn.
    + rewrite forallb_and.
      destruct (nullable col), (existsb _ l), (has_dtype _ c),
        (forallb (has_dtype _) _), (forallb (λ chk, chk c) _); cbn; done.
    + destruct (nullable col); cbn; done.
Qed.

Lemma validate_series_cases (name : string) (col : Column) (series : list cell) :
  ∃ msg, validate_series name col series
         = if series_ok col series then Ok () else Raise (SchemaError msg).
Proof.
  unfold validate_series, series_ok. rewrite forallb_cell_ok.
  destruct (nullable col), (existsb _ series), (allow_duplicates col),
    (duplicated series), (forallb (has_dtype _) _), (forallb (λ chk, _) _);
    cbn; eauto.
Qed.

Lemma cell_eqb_of_str (a b : option string) :
  cell_eqb (of_str a) (of_str b) = bool_decide (a = b).
Proof.
  destruct a as [s|], b as [t|]; cbn; try done.
  destruct (decide (s = t)) as [->|Hne].
  - by rewrite !bool_decide_eq_true_2.
  - rewrite !bool_decide_eq_false_2; [done|congruence|done].
Qed.

Lemma duplicated_of_str (l : list (option string)) :
  duplicated (map of_str l) = false ↔ NoDup l.
Proof.
  induction l as [|a l IH]; cbn; [split; [constructor|done]|].
  rewrite orb_false_iff, IH, NoDup_cons.
  apply and_iff_compat_r. split.
  - intros Hex Hin. apply list_elem_of_In in Hin.
    assert (existsb (cell_eqb (of_str a)) (map of_str l) = true); [|congruence].
    apply existsb_exists. exists (of_str a). split; [by apply in_map|].
    rewrite cell_eqb_of_str. by apply bool_decide_eq_true_2.
  - intros Hnin. apply not_true_is_false. intros Hex.
    apply existsb_exists in Hex as (c & Hc & Heq).
    apply in_map_iff in Hc as (b & <- & Hb).
    rewrite cell_eqb_of_str in Heq. apply bool_decide_eq_true_1 in Heq as ->.
    apply Hnin. by apply list_elem_of_In.
Qed.

End SeriesFacts.

Ltac known_column := apply list_elem_of_In; cbn; tauto.

Section ValidatorFacts.
Import Py Frame World Pandera UpdateSocrataDataset Spec.
Context {Geometry : Type} (E : Extern Geometry).

Lemma getitem_row (r : Row) (name : string) :
  name ∈ columns → getitem (row_items r) name = Ok (cell_at r name).
Proof.
  unfold columns. intros H.
  repeat (apply elem_of_cons in H as [->|H]; [reflexivity|]).
  by apply elem_of_nil in H.
Qed.

Lemma column_total (dataframe : DataFrame) (name : string) :
  name ∈ columns → column dataframe name = Ok (series_of dataframe name).
Proof.
  intros H. unfold column. rewrite bool_decide_eq_true_2 by done.
  apply map_exc_total. intros r _. by apply getitem_row.
Qed.

Lemma column_valid_series_ok (dataframe : DataFrame) (c : string * Column) :
  column_valid dataframe c ↔ series_ok c.2 (series_of dataframe c.1) = true.
Proof.
  unfold column_valid, series_ok, series_of.
  rewrite andb_true_iff, orb_true_iff, negb_true_iff.
  apply and_iff_compat_r.
  rewrite forallb_forall, Forall_forall. split.
  - intros H x Hx. apply in_map_iff in Hx as (r & <- & Hr).
    apply H. by apply list_elem_of_In.
  - intros H r Hr. apply H.
    apply (in_map (λ r, cell_at r c.1)). by apply list_elem_of_In.
Qed.

Lemma validate_column_cases (dataframe : DataFrame) (c : string * Column) :
  c.1 ∈ columns →
  (validate_column dataframe c = Ok () ∧ column_valid dataframe c)
  ∨ (∃ msg, validate_column dataframe c = Raise (SchemaError msg)
            ∧ ¬ column_valid dataframe c).
Proof.
  intros Hc. unfold validate_column.
  rewrite bool_decide_eq_true_2, column_total by done. cbn.
  destruct (validate_series_cases c.1 c.2 (series_of dataframe c.1)) as [msg ->].
  pose proof (column_valid_series_ok dataframe c) as Hiff.
  destruct (series_ok _ _); [left|right; exists msg]; split; try done.
  - by apply Hiff.
  - intros Hv. by apply Hiff in Hv.
Qed.

Lemma validate_columns_cases (dataframe : DataFrame) (cols : list (string * Column)) :
  (∀ c, c ∈ cols → c.1 ∈ columns) →
  (is_ok (map_exc (validate_column dataframe) cols) = true
   ∧ ∀ c, c ∈ cols → column_valid dataframe c)
  ∨ (∃ msg c, map_exc (validate_column dataframe) cols = Raise (SchemaError msg)
              ∧ c ∈ cols ∧ ¬ column_valid dataframe c).
Proof.
  induction cols as [|c cols IH]; intros Hcols.
  - left. split; [done|]. intros c Hc. by apply elem_of_nil in Hc.
  - cbn. destruct (validate_column_cases dataframe c) as [[-> Hv]|(msg & -> & Hv)];
      [apply Hcols; constructor| |].
    + cbn. destruct IH as [[Hok Hall]|(msg & c' & -> & Hin & Hv')].
      * intros c' Hc'. apply Hcols. by constructor.
      * left. split; [by destruct (map_exc _ cols)|].
        intros c' [->|Hc']%elem_of_cons; auto.
      * right. exists msg, c'. split; [done|]. split; [by constructor|done].
    + right. exists msg, c. split; [done|]. split; [constructor|done].
Qed.

Lemma schema_names : (schema_columns (schema E)).*1 = columns.
Proof. reflexivity. Qed.

Lemma schema_columns_known (c : string * Column) :
  c ∈ schema_columns (schema E) → c.1 ∈ columns.
Proof.
  intros Hc. rewrite <- schema_names. apply list_elem_of_fmap. by exists c.
Qed.

(** A row that holds no null has a text as [year_date]. *)
Lemma no_null_year_date (r : Row) : no_null r = true → is_Some (year_date r).
Proof.
  destruct r as [[s t c v l val dv dl d y yd gi gn gt loc] i].
  destruct yd as [value|]; [by eexists|].
  unfold no_null, row_items, canon_items. cbn.
  rewrite !andb_false_r. done.
Qed.

(** On a row that holds no null, the check of [year_date] raises. *)
Lemma check_year_date_row (r : Row) :
  no_null r = true →
  ∃ msg, check_year_date (row_items r) = Raise (AttributeError msg).
Proof.
  intros [d Hd]%no_null_year_date. unfold check_year_date.
  rewrite (getitem_row r "year_date"), (getitem_row r "year")
    by known_column.
  change (cell_at r "year_date") with (of_str (year_date r)).
  rewrite Hd. cbn. eauto.
Qed.

Lemma check_row_id_total (dataframe : DataFrame) :
  check_row_id E dataframe
  = Ok (map (λ r, bool_decide (row_id r = Some (spec_row_id r))) dataframe).
Proof.
  unfold check_row_id.
  rewrite column_total by known_column.
  rewrite (map_exc_total _ (λ r : Row, spec_row_id r))
    by (intros; apply make_row_id_row).
  unfold series_of. cbn [mbind exc_bind]. rewrite zip_with_map. f_equal.
  apply map_ext. intros r.
  change (cell_at r "row_id") with (of_str (row_id r)).
  destruct (row_id r) as [i|]; cbn [of_str from_option]; [|done].
  destruct (decide (i = spec_row_id r)) as [->|Hne].
  - by rewrite !bool_decide_eq_true_2.
  - rewrite !bool_decide_eq_false_2; [done|congruence|done].
Qed.

End ValidatorFacts.

Section ValidateFacts.
Import Py Frame World Pandera UpdateSocrataDataset Spec.
Context {Geometry : Type} (E : Extern Geometry).

(** The columns are valid exactly when the test of every column passes. *)
Lemma columns_valid_ok (dataframe : DataFrame) :
  columns_valid E dataframe ↔ columns_ok E dataframe = true.
Proof.
  unfold columns_valid, columns_ok. rewrite forallb_forall. split.
  - intros H c Hc%list_elem_of_In. by apply column_valid_series_ok, H.
  - intros H c Hc%list_elem_of_In. by apply column_valid_series_ok, H.
Qed.

(** No row of the frame is left for the checks of the schema exactly when
    every row holds a null. *)
Lemma dropna_nil (dataframe : DataFrame) :
  dropna dataframe = [] ↔ ∀ r, r ∈ dataframe → no_null r = false.
Proof.
  unfold dropna. induction dataframe as [|r l IH]; cbn [List.filter].
  - split; [|done]. by intros _ r ?%elem_of_nil.
  - destruct (no_null r) eqn:Hr.
    + split; [done|]. intros H. specialize (H r). rewrite Hr in H.
      discriminate H. left.
    + rewrite IH. split.
      * intros H r' [->|?]%elem_of_cons; auto.
      * intros H r' Hr'. apply H. by right.
Qed.

Lemma dropna_cons (dataframe : DataFrame) (r : Row) :
  r ∈ dataframe → no_null r = true → dropna dataframe ≠ [].
Proof. intros Hr Hn Hnil. rewrite dropna_nil in Hnil. by rewrite (Hnil r Hr) in Hn. Qed.

(** A check built with the defaults sees the rows that hold no null. *)
Lemma validate_check_default (fn : CheckFn) (dataframe : DataFrame) :
  validate_check dataframe (Check_ fn)
  = (result ← match fn with
              | RowWise f => map_exc (λ r, f (row_items r)) (dropna dataframe)
              | FrameWise f => f (dropna dataframe)
              end;
     if forallb id result then Ok ()
     else Raise (SchemaError "DataFrameSchema failed series validator")).
Proof. reflexivity. Qed.

(** What [schema.validate] does of a frame: it returns it when the columns
    are valid and every row holds a null; it raises [SchemaError] when a
    column is not valid; it raises [AttributeError], from the check of
    [year_date], when the columns are valid and a row holds no null. *)
Lemma validate_cases (dataframe : DataFrame) :
  (columns_valid E dataframe ∧ dropna dataframe = []
   ∧ Pandera.validate (schema E) dataframe = Ok dataframe)
  ∨ (¬ columns_valid E dataframe
     ∧ ∃ msg, Pandera.validate (schema E) dataframe = Raise (SchemaError msg))
  ∨ (columns_valid E dataframe ∧ dropna dataframe ≠ []
     ∧ ∃ msg, Pandera.validate (schema E) dataframe = Raise (AttributeError msg)).
Proof.
  unfold Pandera.validate.
  assert (strict (schema E)
          && negb (forallb (λ c, bool_decide (c ∈ (schema_columns (schema E)).*1))
                     columns) = false) as -> by (vm_compute; reflexivity).
  destruct (validate_columns_cases dataframe (schema_columns (schema E))
              (schema_columns_known E))
    as [[Hok Hall]|(msg & c & -> & Hin & Hv)].
  2:{ right. left. split; [|by exists msg]. intros Hcols. by apply Hv, Hcols. }
  destruct (map_exc (validate_column dataframe) _) as [us|]; [clear Hok|done].
  cbn [mbind exc_bind].
  change (schema_checks (schema E))
    with [Check_ (RowWise check_year_date); Check_ (FrameWise (check_row_id E))].
  cbn [map_exc]. rewrite !validate_check_default.
  destruct (dropna dataframe) as [|r rest] eqn:Hdrop.
  - left. split; [done|]. split; [done|]. reflexivity.
  - right. right. split; [done|]. split; [done|].
    assert (no_null r = true) as Hr.
    { assert (In r (List.filter no_null dataframe)) as Hin
        by (unfold dropna in Hdrop; rewrite Hdrop; by left).
      by apply filter_In in Hin as [_ ?]. }
    destruct (check_year_date_row r Hr) as [msg Hmsg].
    exists msg. cbn [map_exc]. by rewrite Hmsg.
Qed.

(** The validator accepts a frame whose columns are valid and whose rows
    each hold a null, and changes nothing. *)
Lemma validate_dataframe_accepts (dataframe : DataFrame) (st : State) :
  columns_valid E dataframe → dropna dataframe = [] →
  validate_dataframe E dataframe st = (st, Ok true).
Proof.
  intros Hv Hd. unfold validate_dataframe.
  destruct (validate_cases dataframe)
    as [(_ & _ & ->)|[[Hn _]|(_ & Hne & _)]]; done.
Qed.

(** It rejects a frame with a column that is not valid, with one warning
    and no exception. *)
Lemma validate_dataframe_rejects (dataframe : DataFrame) (st : State) :
  ¬ columns_valid E dataframe →
  ∃ msg, validate_dataframe E dataframe st
         = ({| logged := logged st
                         ++ [(WARNING, "Failed to validate dataframe: " +:+ msg)];
               uploaded := uploaded st |}, Ok false).
Proof.
  intros Hn. unfold validate_dataframe.
  destruct (validate_cases dataframe)
    as [(Hv & _)|[(_ & msg & ->)|(Hv & _)]]; [done| |done].
  by exists msg.
Qed.

(** It raises on a frame whose columns are valid and that has a row
    without a null, and changes nothing. *)
Lemma validate_dataframe_raises (dataframe : DataFrame) (st : State) :
  columns_valid E dataframe → dropna dataframe ≠ [] →
  ∃ msg, validate_dataframe E dataframe st = (st, Raise (AttributeError msg)).
Proof.
  intros Hv Hd. unfold validate_dataframe.
  destruct (validate_cases dataframe)
    as [(_ & Hnil & _)|[[Hn _]|(_ & _ & msg & ->)]]; [done..|].
  by exists msg.
Qed.

Lemma validate_dataframe_true (dataframe : DataFrame) (st : State) :
  (validate_dataframe E dataframe st).2 = Ok true →
  columns_valid E dataframe ∧ dropna dataframe = [].
Proof.
  intros H.
  destruct (validate_cases dataframe) as [(Hv & Hd & _)|[[Hn _]|(Hv & Hd & _)]].
  - done.
  - destruct (validate_dataframe_rejects dataframe st Hn) as [msg Heq].
    by rewrite Heq in H.
  - destruct (validate_dataframe_raises dataframe st Hv Hd) as [msg Heq].
    by rewrite Heq in H.
Qed.

Lemma validate_dataframe_false (dataframe : DataFrame) (st : State) :
  (validate_dataframe E dataframe st).2 = Ok false → ¬ columns_valid E dataframe.
Proof.
  intros H.
  destruct (validate_cases dataframe) as [(Hv & Hd & _)|[[Hn _]|(Hv & Hd & _)]].
  - by rewrite validate_dataframe_accepts in H.
  - done.
  - destruct (validate_dataframe_raises dataframe st Hv Hd) as [msg Heq].
    by rewrite Heq in H.
Qed.

(** With valid columns, the validator never answers [False]. *)
Lemma validate_dataframe_not_false (dataframe : DataFrame) (st : State) :
  columns_valid E dataframe → (validate_dataframe E dataframe st).2 ≠ Ok false.
Proof. intros Hv Hf%validate_dataframe_false. done. Qed.

Lemma columns_valid_row_ids (dataframe : DataFrame) :
  columns_valid E dataframe → NoDup (map row_id dataframe).
Proof.
  intros Hcols.
  destruct (Hcols ("row_id", {| dtype := String_; checks := []; nullable := false;
                                allow_duplicates := false |})) as [_ [?|Hdup]];
    [known_column|done|].
  apply duplicated_of_str. by rewrite map_map.
Qed.

End ValidateFacts.

(** ** Claims on the validator *)

Section ValidatorClaims.
Import Py Frame World Pandera UpdateSocrataDataset Spec.

(** C1. The identifier [make_row_id] computes is the join, with ["|"], of
    the string forms of [source], [variable], [denominator_variable], [year]
    and [geo_id], a null being the empty string; [assign_row_id] stores that
    string in every row, so that recomputing it reproduces the stored
    [row_id]; and the check function of the schema compares, row by row, the
    stored [row_id] with that string.  The validator does not enforce the
    equality, though: the check is built with [ignore_na=True], so it is
    given the rows that hold no null only, and it comes after the check of
    [year_date], which raises on such rows.  A table whose columns are valid
    and whose rows each hold a null is accepted whatever its [row_id]s, and
    with valid columns the validator never answers [False]. *)
Theorem stale_row_id_is_not_rejected {Geometry : Type} (E : Extern Geometry) :
  (∀ r : Row, make_row_id E (row_items r) = Ok (spec_row_id r))
  ∧ (∀ dataframe : list CanonRow,
       dataframe ≠ [] →
       ∃ keyed, assign_row_id E dataframe = Ok keyed
                ∧ map canon keyed = dataframe
                ∧ ∀ r, r ∈ keyed → Ok <$> row_id r = Some (make_row_id E (row_items r)))
  ∧ (∀ dataframe : DataFrame,
       dataframe ≠ [] →
       check_row_id E dataframe
       = Ok (map (λ r : Row, bool_decide (row_id r = Some (spec_row_id r))) dataframe))
  ∧ (∀ (dataframe : DataFrame) (st : State),
       columns_valid E dataframe →
       (∀ r, r ∈ dataframe → no_null r = false) →
       validate_dataframe E dataframe st = (st, Ok true))
  ∧ (∀ (dataframe : DataFrame) (st : State),
       columns_valid E dataframe →
       (validate_dataframe E dataframe st).2 ≠ Ok false).
Proof.
  split; [apply make_row_id_row|]. split; [|split; [|split]].
  - intros dataframe _. eexists. split; [apply assign_row_id_total|]. split.
    + rewrite map_map. cbn. apply map_id.
    + intros r (r0 & <- & _)%list_elem_of_In%in_map_iff.
      by rewrite make_row_id_row.
  - intros dataframe _. apply check_row_id_total.
  - intros dataframe st Hv Hn. apply validate_dataframe_accepts; [done|].
    by apply dropna_nil.
  - intros dataframe st. apply validate_dataframe_not_false.
Qed.

Lemma stale_row_id_is_not_rejected_witness :
  let table := [Fixture.keyed Fixture.good Fixture.good_id; Cases.stale] in
  Ok <$> row_id Cases.stale ≠ Some (make_row_id Fixture.online (row_items Cases.stale))
  ∧ check_row_id Fixture.online table = Ok [true; false]
  ∧ columns_valid Fixture.online table
  ∧ (∀ r, r ∈ table → no_null r = false)
  ∧ validate_dataframe Fixture.online table start = (start, Ok true).
Proof.
  assert (columns_valid Fixture.online
            [Fixture.keyed Fixture.good Fixture.good_id; Cases.stale]) as Hv
    by (apply columns_valid_ok; vm_compute; reflexivity).
  assert (∀ r, r ∈ [Fixture.keyed Fixture.good Fixture.good_id; Cases.stale] →
               no_null r = false) as Hn.
  { intros r Hr.
    repeat (apply elem_of_cons in Hr as [->|Hr]; [vm_compute; reflexivity|]).
    by apply elem_of_nil in Hr. }
  split; [vm_compute; discriminate|]. split; [vm_compute; reflexivity|].
  split; [exact Hv|]. split; [exact Hn|].
  exact (proj1 (proj2 (proj2 (proj2 (stale_row_id_is_not_rejected Fixture.online))))
           _ start Hv Hn).
Defined.

(** C5. The check of [year_date] against [year] compares nothing: on a row
    it reads the year, a Python [int], and asks it for [astype], which
    raises [AttributeError]; and, built with [ignore_na=True], it is given
    the rows that hold no null only.  A table whose columns are valid and
    whose rows each hold a null is therefore accepted, a row of year 2018
    dated ["2019-01-01"] included; a table whose columns are valid and that
    has a row without a null makes the validator raise. *)
Theorem misaligned_year_date_is_not_rejected
    {Geometry : Type} (E : Extern Geometry) (dataframe : DataFrame) (st : State) :
  (∀ r : Row, no_null r = true →
        ∃ msg, check_year_date (row_items r) = Raise (AttributeError msg))
  ∧ (columns_valid E dataframe →
     (∀ r, r ∈ dataframe → no_null r = false) →
     validate_dataframe E dataframe st = (st, Ok true))
  ∧ (∀ r : Row, columns_valid E dataframe → r ∈ dataframe → no_null r = true →
          ∃ msg, validate_dataframe E dataframe st = (st, Raise (AttributeError msg))).
Proof.
  split; [apply check_year_date_row|]. split.
  - intros Hv Hn. apply validate_dataframe_accepts; [done|]. by apply dropna_nil.
  - intros r Hv Hr Hn. apply validate_dataframe_raises; [done|].
    by apply (dropna_cons _ r).
Qed.

Lemma misaligned_year_date_is_not_rejected_witness :
  (year Cases.late = Some 2018 ∧ year_date Cases.late = Some "2019-01-01"
   ∧ columns_valid Fixture.online [Cases.late]
   ∧ (∀ r, r ∈ [Cases.late] → no_null r = false)
   ∧ validate_dataframe Fixture.online [Cases.late] start = (start, Ok true))
  ∧ (columns_valid Fixture.online [Cases.whole] ∧ no_null Cases.whole = true
     ∧ ∃ msg, validate_dataframe Fixture.online [Cases.whole] start
              = (start, Raise (AttributeError msg))).
Proof.
  assert (columns_valid Fixture.online [Cases.late]) as Hlate
    by (apply columns_valid_ok; vm_compute; reflexivity).
  assert (∀ r, r ∈ [Cases.late] → no_null r = false) as Hn.
  { intros r Hr. apply list_elem_of_singleton in Hr as ->. vm_compute; reflexivity. }
  assert (columns_valid Fixture.online [Cases.whole]) as Hwhole
    by (apply columns_valid_ok; vm_compute; reflexivity).
  assert (Cases.whole ∈ [Cases.whole]) as Hin by left.
  assert (no_null Cases.whole = true) as Hw by (vm_compute; reflexivity).
  split.
  - split; [reflexivity|]. split; [reflexivity|]. split; [exact Hlate|].
    split; [exact Hn|].
    exact (proj1 (proj2 (misaligned_year_date_is_not_rejected Fixture.online
                           [Cases.late] start)) Hlate Hn).
  - split; [exact Hwhole|]. split; [exact Hw|].
    exact (proj2 (proj2 (misaligned_year_date_is_not_rejected Fixture.online
                           [Cases.whole] start)) Cases.whole Hwhole Hin Hw).
Defined.



End ValidatorClaims.

(** ** The orchestrator *)

Section MainFacts.
Import Py Frame World Pandera UpdateSocrataDataset Spec.
Context {Geometry : Type} (E : Extern Geometry).

(** An exception of a source function leaves the loop at once. *)
Lemma main_loop_fetch_raises (name : string) (e : exn)
    (rest : list (string * exc (list CanonRow))) (st : State) :
  main_loop E ((name, Raise e) :: rest) st
  = ({| logged := logged st ++ [(INFO, "Getting data for source " +:+ name)];
        uploaded := uploaded st |}, Raise e).
Proof. reflexivity. Qed.

(** One turn of the loop for a source function that returned [dataframe]. *)
Lemma main_loop_step (name : string) (dataframe : list CanonRow)
    (rest : list (string * exc (list CanonRow))) (st : State) :
  main_loop E ((name, Ok dataframe) :: rest) st
  = let keyed := map (λ r, {| canon := r; row_id := Some (spec_row_id r) |})
                   dataframe in
    let st1 :=
      {| logged := (logged st ++ [(INFO, "Getting data for source " +:+ name)])
                   ++ [(INFO, "Validating dataframe for source " +:+ name)];
         uploaded := uploaded st |} in
    match validate_dataframe E keyed st1 with
    | (st2, Ok true) =>
        let st3 :=
          {| logged := logged st2
                       ++ [(INFO, "Updating Socrata dataset for source " +:+ name
                                  +:+ ": " +:+ DATASET_ID)];
             uploaded := uploaded st2 ++ [keyed] |} in
        match socrata_apply E keyed with
        | Ok revision_url =>
            main_loop E rest
              {| logged := logged st3
                           ++ [(INFO, "Updated Socrata dataset; revision will be published soon: "
                                      +:+ revision_url)];
                 uploaded := uploaded st3 |}
        | Raise e => (st3, Raise e)
        end
    | (st2, Ok false) =>
        main_loop E rest
          {| logged := logged st2
                       ++ [(WARNING, "Validation failed; skipping to next source")];
             uploaded := uploaded st2 |}
    | (st2, Raise e) => (st2, Raise e)
    end.
Proof.
  cbn [main_loop]. unfold mbind at 1, M_bind at 1. cbn [logger_info].
  unfold mbind at 1, M_bind at 1, lift at 1.
  unfold mbind at 1, M_bind at 1, lift at 1.
  rewrite assign_row_id_total.
  unfold mbind at 1, M_bind at 1. cbn [logger_info logged uploaded].
  unfold mbind at 1, M_bind at 1. cbv zeta.
  destruct (validate_dataframe E _ _) as [st2 [[|]|e]]; [| |done].
  - cbn [negb]. unfold mbind at 1, M_bind at 1. cbn [logger_info].
    unfold mbind at 1, M_bind at 1, update_socrata_dataset at 1.
    cbn [logged uploaded].
    destruct (socrata_apply E _) as [url|e]; [|done].
    unfold mbind at 1, M_bind at 1. cbn [logger_info logged uploaded]. done.
  - cbn [negb]. unfold mbind at 1, M_bind at 1. cbn [logger_warning]. done.
Qed.

End MainFacts.

Section MainLoopFacts.
Import Py Frame World Pandera UpdateSocrataDataset Spec.
Context {Geometry : Type} (E : Extern Geometry).

Local Abbreviation keyed_of dataframe :=
  (map (λ r, {| canon := r; row_id := Some (spec_row_id r) |}) dataframe).

(** A frame with a column that is not valid: four lines are logged,
    nothing is uploaded, and the loop goes on. *)
Lemma main_loop_skips (name : string) (dataframe : list CanonRow)
    (rest : list (string * exc (list CanonRow))) (st : State) :
  ¬ columns_valid E (keyed_of dataframe) →
  ∃ msg, main_loop E ((name, Ok dataframe) :: rest) st
         = main_loop E rest
             {| logged := logged st
                          ++ [ (INFO, "Getting data for source " +:+ name);
                               (INFO, "Validating dataframe for source " +:+ name);
                               (WARNING, "Failed to validate dataframe: " +:+ msg);
                               (WARNING, "Validation failed; skipping to next source") ];
                uploaded := uploaded st |}.
Proof.
  intros Hn. rewrite main_loop_step. cbv zeta.
  edestruct (validate_dataframe_rejects E) as [msg ->]; [exact Hn|].
  exists msg. cbn [logged uploaded]. by rewrite <- !app_assoc.
Qed.

(** An accepted frame: it is handed to the Socrata client, whole, and the
    loop goes on if the upload returns. *)
Lemma main_loop_publishes (name : string) (dataframe : list CanonRow)
    (rest : list (string * exc (list CanonRow))) (st : State) :
  columns_valid E (keyed_of dataframe) → dropna (keyed_of dataframe) = [] →
  main_loop E ((name, Ok dataframe) :: rest) st
  = match socrata_apply E (keyed_of dataframe) with
    | Ok revision_url =>
        main_loop E rest
          {| logged := logged st
                       ++ [ (INFO, "Getting data for source " +:+ name);
                            (INFO, "Validating dataframe for source " +:+ name);
                            (INFO, "Updating Socrata dataset for source " +:+ name
                                   +:+ ": " +:+ DATASET_ID);
                            (INFO, "Updated Socrata dataset; revision will be published soon: "
                                   +:+ revision_url) ];
             uploaded := uploaded st ++ [keyed_of dataframe] |}
    | Raise e =>
        ({| logged := logged st
                      ++ [ (INFO, "Getting data for source " +:+ name);
                           (INFO, "Validating dataframe for source " +:+ name);
                           (INFO, "Updating Socrata dataset for source " +:+ name
                                  +:+ ": " +:+ DATASET_ID) ];
            uploaded := uploaded st ++ [keyed_of dataframe] |}, Raise e)
    end.
Proof.
  intros Hv Hd. rewrite main_loop_step. cbv zeta.
  rewrite (validate_dataframe_accepts E) by done. cbn [logged uploaded].
  destruct (socrata_apply E _); by rewrite <- !app_assoc.
Qed.

(** A frame with valid columns and a row without a null: the exception of
    the validator leaves the loop. *)
Lemma main_loop_raises (name : string) (dataframe : list CanonRow)
    (rest : list (string * exc (list CanonRow))) (st : State) :
  columns_valid E (keyed_of dataframe) → dropna (keyed_of dataframe) ≠ [] →
  ∃ msg, main_loop E ((name, Ok dataframe) :: rest) st
         = ({| logged := logged st
                         ++ [ (INFO, "Getting data for source " +:+ name);
                              (INFO, "Validating dataframe for source " +:+ name) ];
               uploaded := uploaded st |}, Raise (AttributeError msg)).
Proof.
  intros Hv Hd. rewrite main_loop_step. cbv zeta.
  edestruct (validate_dataframe_raises E) as [msg ->]; [exact Hv|exact Hd|].
  exists msg. by rewrite <- !app_assoc.
Qed.

(** The loop only adds to the log and to the uploads, at most one frame per
    source. *)
Lemma main_loop_extends (sources : list (string * exc (list CanonRow))) (st : State) :
  ∃ lines frames,
    logged (main_loop E sources st).1 = (logged st ++ lines)%list
    ∧ uploaded (main_loop E sources st).1 = (uploaded st ++ frames)%list
    ∧ (length frames ≤ length sources)%nat.
Proof.
  revert st. induction sources as [|[name [dataframe|e]] rest IH]; intros st.
  - exists [], []. cbn. by rewrite !app_nil_r.
  - destruct (validate_cases E (keyed_of dataframe))
      as [(Hv & Hd & _)|[[Hn _]|(Hv & Hd & _)]].
    + rewrite main_loop_publishes by done.
      destruct (socrata_apply E _) as [url|e].
      * match goal with |- context [main_loop E rest ?s] =>
          destruct (IH s) as (lines & frames & -> & -> & Hlen) end.
        cbn [logged uploaded]. eexists _, (keyed_of dataframe :: frames).
        rewrite <- !app_assoc. split; [reflexivity|]. split; [reflexivity|].
        cbn. lia.
      * cbn [fst logged uploaded]. eexists _, [keyed_of dataframe].
        split; [reflexivity|]. split; [reflexivity|]. cbn. lia.
    + destruct (main_loop_skips name dataframe rest st Hn) as [msg ->].
      match goal with |- context [main_loop E rest ?s] =>
        destruct (IH s) as (lines & frames & -> & -> & Hlen) end.
      cbn [logged uploaded]. eexists _, frames.
      rewrite <- !app_assoc. split; [reflexivity|]. split; [reflexivity|].
      cbn. lia.
    + destruct (main_loop_raises name dataframe rest st Hv Hd) as [msg ->].
      cbn [fst logged uploaded]. eexists _, [].
      split; [reflexivity|]. split; [by rewrite app_nil_r|cbn; lia].
  - rewrite main_loop_fetch_raises. cbn [fst logged uploaded].
    eexists _, []. split; [reflexivity|]. split; [by rewrite app_nil_r|cbn; lia].
Qed.

(** Whatever [main] hands to the Socrata client is the whole keyed frame of
    one of its sources, with valid columns and a null in every row. *)
Lemma main_loop_uploads (sources : list (string * exc (list CanonRow)))
    (st : State) (keyed : DataFrame) :
  keyed ∈ uploaded (main_loop E sources st).1 →
  keyed ∈ uploaded st
  ∨ ((columns_valid E keyed ∧ dropna keyed = [])
     ∧ ∃ name dataframe, (name, Ok dataframe) ∈ sources
                         ∧ assign_row_id E dataframe = Ok keyed).
Proof.
  revert st. induction sources as [|[name [dataframe|e]] rest IH]; intros st.
  - cbn. auto.
  - set (k := keyed_of dataframe).
    assert (∀ st', keyed ∈ uploaded (main_loop E rest st').1 →
                   keyed ∈ uploaded st'
                   ∨ ((columns_valid E keyed ∧ dropna keyed = [])
                      ∧ ∃ name0 dataframe0,
                          (name0, Ok dataframe0) ∈ (name, Ok dataframe) :: rest
                          ∧ assign_row_id E dataframe0 = Ok keyed)) as IH'.
    { intros st' [?|(? & n & d & ? & ?)]%IH; [by left|right].
      split; [done|]. exists n, d. split; [by constructor|done]. }
    destruct (validate_cases E k) as [(Hv & Hd & _)|[[Hn _]|(Hv & Hd & _)]].
    + rewrite main_loop_publishes by done. fold k.
      assert (keyed ∈ (uploaded st ++ [k])%list →
              keyed ∈ uploaded st
              ∨ ((columns_valid E keyed ∧ dropna keyed = [])
                 ∧ ∃ name0 dataframe0,
                     (name0, Ok dataframe0) ∈ (name, Ok dataframe) :: rest
                     ∧ assign_row_id E dataframe0 = Ok keyed)) as Hnew.
      { intros [?|Hk]%elem_of_app; [by left|right].
        apply list_elem_of_singleton in Hk as ->.
        split; [done|]. exists name, dataframe.
        split; [constructor|apply assign_row_id_total]. }
      destruct (socrata_apply E k); cbn [fst uploaded]; [|exact Hnew].
      intros [H|H]%IH'; [by apply Hnew|by right].
    + destruct (main_loop_skips name dataframe rest st Hn) as [msg ->].
      intros [H|H]%IH'; [by left|by right].
    + destruct (main_loop_raises name dataframe rest st Hv Hd) as [msg ->].
      cbn [fst uploaded]. auto.
  - rewrite main_loop_fetch_raises. cbn. auto.
Qed.



End MainLoopFacts.

(** ** Claims on the orchestrator *)

Section OrchestratorClaims.
Import Py Frame World Pandera UpdateSocrataDataset Spec.

(** C7. Validation is all-or-nothing per table as far as the declared
    columns go.  In a plain table (an [int64] column of years, ASCII dates),
    one cell of one row that breaks a constraint of its column makes the
    validator answer [False] for the whole table; in [main] a table answered
    [False] is not handed to the Socrata client and the loop goes on with
    the next source; an accepted table is handed over whole, and every frame
    handed over is the whole frame of a source, with its identifiers, and
    was accepted.  The cross-field checks stop nothing: a frame whose
    columns are valid and whose rows each hold a null is handed over, and a
    frame whose columns are valid and that has a row without a null makes
    the validator raise, which leaves [main] before the next source. *)
Theorem column_validation_is_all_or_nothing {Geometry : Type} (E : Extern Geometry) :
  (∀ (dataframe : DataFrame) (r : Row) (c : string * Column) (st : State),
     plain (map canon dataframe) = true →
     r ∈ dataframe → c ∈ schema_columns (schema E) →
     cell_ok c.2 (cell_at r c.1) = false →
     (validate_dataframe E dataframe st).2 = Ok false)
  ∧ (∀ name dataframe keyed rest st,
       dataframe ≠ [] →
       plain dataframe = true →
       assign_row_id E dataframe = Ok keyed →
       (validate_dataframe E keyed start).2 = Ok false →
       ∃ msg,
         main_loop E ((name, Ok dataframe) :: rest) st
         = main_loop E rest
             {| logged := logged st
                          ++ [ (INFO, "Getting data for source " +:+ name);
                               (INFO, "Validating dataframe for source " +:+ name);
                               (WARNING, "Failed to validate dataframe: " +:+ msg);
                               (WARNING, "Validation failed; skipping to next source") ];
                uploaded := uploaded st |})
  ∧ (∀ name dataframe keyed rest st,
       dataframe ≠ [] →
       assign_row_id E dataframe = Ok keyed →
       (validate_dataframe E keyed start).2 = Ok true →
       keyed ∈ uploaded (main_loop E ((name, Ok dataframe) :: rest) st).1)
  ∧ (∀ sources st keyed,
       keyed ∈ uploaded (main_loop E sources st).1 →
       keyed ∈ uploaded st
       ∨ ((validate_dataframe E keyed start).2 = Ok true
          ∧ ∃ name dataframe, (name, Ok dataframe) ∈ sources
                              ∧ assign_row_id E dataframe = Ok keyed))
  ∧ (∀ name dataframe keyed rest st,
       dataframe ≠ [] →
       assign_row_id E dataframe = Ok keyed →
       columns_valid E keyed →
       (∀ r, r ∈ keyed → no_null r = false) →
       keyed ∈ uploaded (main_loop E ((name, Ok dataframe) :: rest) st).1)
  ∧ (∀ name dataframe keyed rest st (r : Row),
       dataframe ≠ [] →
       assign_row_id E dataframe = Ok keyed →
       columns_valid E keyed → r ∈ keyed → no_null r = true →
       ∃ msg,
         main_loop E ((name, Ok dataframe) :: rest) st
         = ({| logged := logged st
                         ++ [ (INFO, "Getting data for source " +:+ name);
                              (INFO, "Validating dataframe for source " +:+ name) ];
               uploaded := uploaded st |}, Raise (AttributeError msg))).
Proof.
  assert (∀ name dataframe rest st,
            columns_valid E (map (λ r, {| canon := r; row_id := Some (spec_row_id r) |})
                               dataframe) →
            dropna (map (λ r, {| canon := r; row_id := Some (spec_row_id r) |})
                      dataframe) = [] →
            map (λ r, {| canon := r; row_id := Some (spec_row_id r) |}) dataframe
            ∈ uploaded (main_loop E ((name, Ok dataframe) :: rest) st).1) as Hpub.
  { intros name dataframe rest st Hv Hd.
    rewrite main_loop_publishes by done.
    destruct (socrata_apply E _) as [url|e].
    - match goal with |- context [main_loop E rest ?s] =>
        destruct (main_loop_extends E rest s) as (lines & frames & _ & -> & _) end.
      cbn [uploaded]. rewrite !elem_of_app, list_elem_of_singleton. auto.
    - cbn [fst uploaded]. rewrite elem_of_app, list_elem_of_singleton. auto. }
  split; [|split; [|split; [|split; [|split]]]].
  - intros dataframe r c st _ Hr Hc Hcell.
    destruct (validate_dataframe_rejects E dataframe st) as [msg ->]; [|done].
    intros Hcols. destruct (Hcols c Hc) as [Hall _].
    rewrite Forall_forall in Hall. specialize (Hall r Hr). congruence.
  - intros name dataframe keyed rest st _ _ Hkeyed Hfalse.
    rewrite assign_row_id_total in Hkeyed. injection Hkeyed as <-.
    apply validate_dataframe_false in Hfalse.
    apply (main_loop_skips E name dataframe rest st Hfalse).
  - intros name dataframe keyed rest st _ Hkeyed Htrue.
    rewrite assign_row_id_total in Hkeyed. injection Hkeyed as <-.
    apply validate_dataframe_true in Htrue as [Hv Hd]. by apply Hpub.
  - intros sources st keyed [?|[[Hv Hd] ?]]%main_loop_uploads; [by left|right].
    split; [|done]. by rewrite validate_dataframe_accepts.
  - intros name dataframe keyed rest st _ Hkeyed Hv Hn.
    rewrite assign_row_id_total in Hkeyed. injection Hkeyed as <-.
    apply Hpub; [done|]. by apply dropna_nil.
  - intros name dataframe keyed rest st r _ Hkeyed Hv Hr Hn.
    rewrite assign_row_id_total in Hkeyed. injection Hkeyed as <-.
    apply main_loop_raises; [done|]. by apply (dropna_cons _ r).
Qed.

Lemma column_validation_is_all_or_nothing_witness :
  (∃ dataframe keyed msg,
     Fixture.flawed_source = Ok dataframe
     ∧ length dataframe = 2%nat
     ∧ assign_row_id Fixture.online dataframe = Ok keyed
     ∧ (validate_dataframe Fixture.online keyed start).2 = Ok false
     ∧ main_loop Fixture.online Fixture.two_sources start
       = main_loop Fixture.online [("ACS5", Acs5.get_source_acs5 Fixture.online)]
           {| logged := [ (INFO, "Getting data for source ACS5-flawed");
                          (INFO, "Validating dataframe for source ACS5-flawed");
                          (WARNING, "Failed to validate dataframe: " +:+ msg);
                          (WARNING, "Validation failed; skipping to next source") ];
              uploaded := [] |})
  ∧ (∃ dataframe,
       Acs5.get_source_acs5 Cases.late_census = Ok dataframe
       ∧ assign_row_id Cases.late_census dataframe = Ok [Cases.late]
       ∧ [Cases.late] ∈ uploaded (main Cases.late_census start).1)
  ∧ (∃ msg,
       main_loop Fixture.online Cases.whole_first start
       = ({| logged := [ (INFO, "Getting data for source shares");
                         (INFO, "Validating dataframe for source shares") ];
             uploaded := [] |}, Raise (AttributeError msg))).
Proof.
  split; [|split].
  - destruct Fixture.flawed_source as [dataframe|e] eqn:Hsrc;
      [|vm_compute in Hsrc; discriminate Hsrc].
    destruct (assign_row_id Fixture.online dataframe) as [keyed|e] eqn:Hkeyed;
      [|rewrite assign_row_id_total in Hkeyed; discriminate Hkeyed].
    assert (length dataframe = 2%nat) as Hlen
      by (vm_compute in Hsrc; by injection Hsrc as <-).
    assert (dataframe ≠ []) as Hne by (intros ->; discriminate Hlen).
    assert (plain dataframe = true) as Hyears
      by (vm_compute in Hsrc; injection Hsrc as <-; reflexivity).
    assert ((validate_dataframe Fixture.online keyed start).2 = Ok false) as Hfalse.
    { vm_compute in Hsrc. injection Hsrc as <-.
      vm_compute in Hkeyed. injection Hkeyed as <-.
      vm_compute. reflexivity. }
    destruct (proj1 (proj2 (column_validation_is_all_or_nothing Fixture.online))
                "ACS5-flawed" dataframe keyed
                [("ACS5", Acs5.get_source_acs5 Fixture.online)] start
                Hne Hyears Hkeyed Hfalse)
      as (msg & Hloop).
    exists dataframe, keyed, msg.
    split; [reflexivity|]. split; [exact Hlen|].
    split; [exact Hkeyed|]. split; [exact Hfalse|].
    unfold Fixture.two_sources. rewrite Hsrc. exact Hloop.
  - assert (∃ dataframe, Acs5.get_source_acs5 Cases.late_census = Ok dataframe
                         ∧ dataframe ≠ []
                         ∧ assign_row_id Cases.late_census dataframe = Ok [Cases.late])
      as (dataframe & Hsrc & Hne & Hkeyed).
    { eexists. split; [vm_compute; reflexivity|]. split; [discriminate|].
      vm_compute. reflexivity. }
    assert (columns_valid Cases.late_census [Cases.late]) as Hv
      by (apply columns_valid_ok; vm_compute; reflexivity).
    assert (∀ r, r ∈ [Cases.late] → no_null r = false) as Hn.
    { intros r Hr. apply list_elem_of_singleton in Hr as ->. vm_compute; reflexivity. }
    exists dataframe. split; [exact Hsrc|]. split; [exact Hkeyed|].
    unfold main. rewrite Hsrc.
    exact (proj1 (proj2 (proj2 (proj2 (proj2
                   (column_validation_is_all_or_nothing Cases.late_census)))))
             "ACS5" dataframe [Cases.late] [] start Hne Hkeyed Hv Hn).
  - assert ([Cases.whole_canon] ≠ []) as Hne by discriminate.
    assert (assign_row_id Fixture.online [Cases.whole_canon] = Ok [Cases.whole])
      as Hkeyed by (vm_compute; reflexivity).
    assert (columns_valid Fixture.online [Cases.whole]) as Hv
      by (apply columns_valid_ok; vm_compute; reflexivity).
    assert (Cases.whole ∈ [Cases.whole]) as Hin by left.
    assert (no_null Cases.whole = true) as Hw by (vm_compute; reflexivity).
    exact (proj2 (proj2 (proj2 (proj2 (proj2
                   (column_validation_is_all_or_nothing Fixture.online)))))
             "shares" [Cases.whole_canon] [Cases.whole]
             [("ACS5", Acs5.get_source_acs5 Fixture.online)] start Cases.whole
             Hne Hkeyed Hv Hin Hw).
Defined.




End OrchestratorClaims.

(** ** The normalizer *)

Section TransformFacts.
Import Py Frame World Pandera UpdateSocrataDataset Spec Acs5.
Context {Geometry : Type} (E : Extern Geometry).

Lemma loc_map {A} (p : A → bool) (l : list A) :
  loc l (map p l) = List.filter p l.
Proof.
  induction l as [|x l IH]; [done|]. cbn. rewrite IH. by destruct (p x).
Qed.

(** The boolean series of the first step, row by row. *)
Lemma changed_meaning_mask (dataframe : list (SourceRow Geometry)) :
  series_not
    (series_or
      (series_and
        (isin (map raw_variable_code dataframe) ["DP05_0018E"; "S0101_C01_028E"])
        (series_le (map raw_year dataframe) 2016))
      (series_and
        (isin (map raw_variable_code dataframe) ["DP05_0017E"; "S0101_C01_026E"])
        (series_ge (map raw_year dataframe) 2017)))
  = map (λ s, negb (changed_meaning s)) dataframe.
Proof.
  unfold series_not, series_or, series_and, isin, series_le, series_ge.
  rewrite !map_map, !zip_with_map, map_map. reflexivity.
Qed.

Lemma changed_meaning_superseded (s : SourceRow Geometry) :
  changed_meaning s = true ↔ superseded (raw_variable_code s) (raw_year s).
Proof.
  unfold changed_meaning, superseded, old_codes, new_codes.
  destruct (raw_variable_code s) as [c|], (raw_year s) as [y|]; cbn.
  - rewrite orb_true_iff, !andb_true_iff, !bool_decide_eq_true. split.
    + intros [[Hc Hy]|[Hc Hy]]; exists c, y; (split; [done|]); (split; [done|]);
        [right|left]; (split; [done|lia]).
    + intros (c' & y' & [= <-] & [= <-] & [[Hc Hy]|[Hc Hy]]); [right|left];
        (split; [done|lia]).
  - rewrite !andb_false_r. split; [done|]. by intros (? & ? & _ & ? & _).
  - split; [done|]. by intros (? & ? & ? & _).
  - split; [done|]. by intros (? & ? & ? & _).
Qed.

(** [transform_dataframe], its two selections written as filters. *)
Lemma transform_dataframe_eq (source_dataframe : list (SourceRow Geometry)) :
  transform_dataframe E source_dataframe
  = let kept := List.filter (λ s, negb (changed_meaning s)) source_dataframe in
    location ← map_exc (serialize_to_wkt E) (map raw_geometry kept);
    Ok (List.filter (λ r, notnull (Float (value r)))
          (merge_left (zip_with transform_data kept location) (acs5_labels E))).
Proof.
  unfold transform_dataframe. cbv zeta.
  rewrite changed_meaning_mask, loc_map.
  destruct (map_exc _ _) as [location|e]; [|done].
  cbn [mbind exc_bind]. by rewrite loc_map.
Qed.

Lemma elem_of_serialized (kept : list (SourceRow Geometry))
    (location : list (option string)) (r : CanonRow) :
  map_exc (serialize_to_wkt E) (map raw_geometry kept) = Ok location →
  r ∈ zip_with transform_data kept location
  ↔ ∃ s wkt, s ∈ kept ∧ serialize_to_wkt E (raw_geometry s) = Ok wkt
             ∧ r = transform_data s wkt.
Proof.
  revert location. induction kept as [|s kept IH]; intros location; cbn.
  - intros [= <-]. cbn. split; [by intros ?%elem_of_nil|].
    by intros (? & ? & ?%elem_of_nil & _).
  - destruct (serialize_to_wkt E (raw_geometry s)) as [wkt|e] eqn:Hs; [|done].
    cbn. destruct (map_exc _ _) as [location'|e]; [|done].
    cbn. intros [= <-]. cbn. rewrite elem_of_cons, (IH location') by done. split.
    + intros [->|(s' & wkt' & Hin & Hser & ->)].
      * exists s, wkt. split; [constructor|done].
      * exists s', wkt'. split; [by constructor|done].
    + intros (s' & wkt' & [->|Hin]%elem_of_cons & Hser & ->).
      * left. congruence.
      * right. by exists s', wkt'.
Qed.

Lemma elem_of_merge_left (dataframe : list CanonRow) (labels : list LabelRow)
    (r : CanonRow) :
  r ∈ merge_left dataframe labels
  ↔ ∃ r0 l, r0 ∈ dataframe ∧ r = with_labels r0 l
            ∧ match l with
              | Some lab => lab ∈ labels ∧ label_variable lab = variable r0
              | None => ∀ lab, lab ∈ labels → label_variable lab ≠ variable r0
              end.
Proof.
  unfold merge_left. rewrite list_elem_of_In, in_flat_map. split.
  - intros (r0 & Hr0%list_elem_of_In & Hr).
    destruct (List.filter _ labels) as [|lab matches] eqn:Hf.
    + apply list_elem_of_In, list_elem_of_singleton in Hr as ->.
      exists r0, None. split; [done|]. split; [done|].
      intros lab Hlab%list_elem_of_In Heq.
      assert (In lab (List.filter (λ l, bool_decide (label_variable l = variable r0))
                        labels)) as Hin
        by (apply filter_In; split; [done|by apply bool_decide_eq_true_2]).
      by rewrite Hf in Hin.
    + apply in_map_iff in Hr as (lab' & <- & Hin).
      rewrite <- Hf in Hin. apply filter_In in Hin as [Hin Heq].
      exists r0, (Some lab'). split; [done|]. split; [done|].
      split; [by apply list_elem_of_In|by apply bool_decide_eq_true_1 in Heq].
  - intros (r0 & l & Hr0 & -> & Hl). exists r0.
    split; [by apply list_elem_of_In|].
    destruct l as [lab|].
    + destruct Hl as [Hin Heq].
      assert (In lab (List.filter (λ l, bool_decide (label_variable l = variable r0))
                        labels)) as Hf
        by (apply filter_In; split;
            [by apply list_elem_of_In|by apply bool_decide_eq_true_2]).
      destruct (List.filter _ labels) as [|lab0 matches]; [done|].
      by apply (in_map (λ l, with_labels r0 (Some l))).
    + destruct (List.filter _ labels) as [|lab0 matches] eqn:Hf; [by left|].
      assert (In lab0 (List.filter (λ l, bool_decide (label_variable l = variable r0))
                         labels)) as Hin by (rewrite Hf; by left).
      apply filter_In in Hin as [Hin Heq%bool_decide_eq_true_1].
      by destruct (Hl lab0 (proj2 (list_elem_of_In _ _) Hin)).
Qed.

End TransformFacts.

Section TransformRows.
Import Py Frame World Pandera UpdateSocrataDataset Spec Acs5.
Context {Geometry : Type} (E : Extern Geometry).

Lemma canonical_of_with_labels (s : SourceRow Geometry) (wkt : option string)
    (l : option LabelRow) :
  canonical_of s wkt l (with_labels (transform_data s wkt) l).
Proof. repeat split. Qed.

(** Where a row of the output comes from. *)
Lemma transform_row_origin (source_dataframe : list (SourceRow Geometry))
    (out : list CanonRow) (r : CanonRow) :
  transform_dataframe E source_dataframe = Ok out → r ∈ out →
  ∃ s wkt l, s ∈ source_dataframe
             ∧ changed_meaning s = false
             ∧ PrimFloat.is_nan (raw_value s) = false
             ∧ serialize_to_wkt E (raw_geometry s) = Ok wkt
             ∧ canonical_of s wkt l r.
Proof.
  rewrite transform_dataframe_eq. cbv zeta.
  destruct (map_exc _ _) as [location|e] eqn:Hloc; [|done].
  cbn [mbind exc_bind]. intros [= <-].
  intros [Hr Hv]%list_elem_of_In%filter_In.
  apply list_elem_of_In, elem_of_merge_left in Hr as (r0 & l & Hr0 & -> & _).
  apply (elem_of_serialized E _ _ _ Hloc) in Hr0 as (s & wkt & Hs & Hser & ->).
  apply list_elem_of_In, filter_In in Hs as [Hs Hkeep].
  exists s, wkt, l. split; [by apply list_elem_of_In|].
  split; [by apply negb_true_iff|]. split; [by apply negb_true_iff|].
  split; [done|]. apply canonical_of_with_labels.
Qed.

(** Which rows of the source reach the output. *)
Lemma transform_row_kept (source_dataframe : list (SourceRow Geometry))
    (out : list CanonRow) (s : SourceRow Geometry) :
  transform_dataframe E source_dataframe = Ok out → s ∈ source_dataframe →
  changed_meaning s = false → PrimFloat.is_nan (raw_value s) = false →
  ∃ r wkt l, r ∈ out ∧ serialize_to_wkt E (raw_geometry s) = Ok wkt
             ∧ canonical_of s wkt l r.
Proof.
  rewrite transform_dataframe_eq. cbv zeta.
  destruct (map_exc _ _) as [location|e] eqn:Hloc; [|done].
  cbn [mbind exc_bind]. intros [= <-] Hs Hkeep Hv.
  assert (s ∈ List.filter (λ s, negb (changed_meaning s)) source_dataframe) as Hs'.
  { apply list_elem_of_In, filter_In. split; [by apply list_elem_of_In|].
    by rewrite Hkeep. }
  assert (∃ wkt, serialize_to_wkt E (raw_geometry s) = Ok wkt) as [wkt Hser].
  { apply map_exc_Ok_inv in Hloc.
    assert (raw_geometry s ∈ map raw_geometry
              (List.filter (λ s, negb (changed_meaning s)) source_dataframe)) as Hg
      by (apply list_elem_of_In, in_map; by apply list_elem_of_In).
    clear -Hloc Hg. induction Hloc as [|g w gs ws Hgw _ IH];
      [by apply elem_of_nil in Hg|].
    apply elem_of_cons in Hg as [->|Hg]; [by exists w|by apply IH]. }
  set (l := match List.filter (λ l, bool_decide (label_variable l = raw_variable_code s))
                    (acs5_labels E) with
            | [] => None
            | lab :: _ => Some lab
            end).
  exists (with_labels (transform_data s wkt) l), wkt, l.
  split; [|split; [done|apply canonical_of_with_labels]].
  apply list_elem_of_In, filter_In. split; [|cbn; by rewrite Hv].
  apply list_elem_of_In, elem_of_merge_left.
  exists (transform_data s wkt), l. split.
  { apply (elem_of_serialized E _ _ _ Hloc). by exists s, wkt. }
  split; [done|]. unfold l. cbn [variable transform_data].
  destruct (List.filter _ (acs5_labels E)) as [|lab matches] eqn:Hf.
  - intros lab Hlab%list_elem_of_In Heq.
    assert (In lab (List.filter (λ l, bool_decide (label_variable l = raw_variable_code s))
                      (acs5_labels E))) as Hin
      by (apply filter_In; split; [done|by apply bool_decide_eq_true_2]).
    by rewrite Hf in Hin.
  - assert (In lab (List.filter (λ l, bool_decide (label_variable l = raw_variable_code s))
                      (acs5_labels E))) as Hin by (rewrite Hf; by left).
    apply filter_In in Hin as [Hin Heq%bool_decide_eq_true_1].
    split; [by apply list_elem_of_In|done].
Qed.



End TransformRows.

(** ** Claims on the normalizer *)

Section NormalizerClaims.
Import Py Frame World Pandera UpdateSocrataDataset Spec Acs5.

(** C3. With boundary year 2017, no row of the output of
    [transform_dataframe] has a superseded code with a year of 2017 or later,
    or a successor code with a year before 2017; in particular none has an
    old code at 2017 or a new code at 2016.  The rule removes no other row:
    every source row with any other (code, year) combination, and a value
    that is not null, has its row in the output. *)
Theorem conflicting_definitions_are_filtered
    {Geometry : Type} (E : Extern Geometry)
    (source_dataframe : list (SourceRow Geometry)) (out : list CanonRow) :
  transform_dataframe E source_dataframe = Ok out →
  (∀ r : CanonRow, r ∈ out → ¬ superseded (variable r) (year r))
  ∧ (∀ (r : CanonRow) (c : string),
       r ∈ out → variable r = Some c →
       (c ∈ old_codes → year r ≠ Some 2017) ∧ (c ∈ new_codes → year r ≠ Some 2016))
  ∧ (∀ s : SourceRow Geometry,
       s ∈ source_dataframe →
       ¬ superseded (raw_variable_code s) (raw_year s) →
       PrimFloat.is_nan (raw_value s) = false →
       ∃ r wkt l, r ∈ out ∧ canonical_of s wkt l r).
Proof.
  intros Hout.
  assert (∀ r : CanonRow, r ∈ out → ¬ superseded (variable r) (year r)) as Hnone.
  { intros r Hr Hsup.
    destruct (transform_row_origin E _ _ _ Hout Hr)
      as (s & wkt & l & _ & Hkeep & _ & _ & Hcan).
    destruct Hcan as (_ & Hvar & _ & Hyear & _).
    rewrite Hvar, Hyear in Hsup. apply changed_meaning_superseded in Hsup.
    congruence. }
  split; [exact Hnone|]. split.
  - intros r c Hr Hvar. split; intros Hc Hy; apply (Hnone r Hr);
      rewrite Hvar, Hy; [exists c, 2017|exists c, 2016];
      (split; [done|]); (split; [done|]); [left|right]; (split; [done|lia]).
  - intros s Hs Hnot Hv.
    destruct (transform_row_kept E _ _ s Hout Hs) as (r & wkt & l & Hr & _ & Hcan);
      [|done|by exists r, wkt, l].
    apply not_true_is_false. by rewrite changed_meaning_superseded.
Qed.

Lemma conflicting_definitions_are_filtered_witness :
  ∃ out,
    transform_dataframe Fixture.online Fixture.source_rows = Ok out
    ∧ map (λ r, (variable r, year r)) out
      = [ (Some "DP05_0017E", Some 2016); (Some "DP05_0018E", Some 2017);
          (Some "DP05_0002E", Some 2018) ]
    ∧ (∀ r : CanonRow, r ∈ out → ¬ superseded (variable r) (year r))
    ∧ ∃ r wkt l, r ∈ out ∧ canonical_of Fixture.old_2016 wkt l r.
Proof.
  destruct (transform_dataframe Fixture.online Fixture.source_rows) as [out|e] eqn:Hout;
    [|vm_compute in Hout; discriminate Hout].
  exists out. split; [reflexivity|].
  split; [vm_compute in Hout; by injection Hout as <-|].
  destruct (conflicting_definitions_are_filtered Fixture.online _ _ Hout)
    as (Hnone & _ & Hkept).
  split; [exact Hnone|].
  apply (Hkept Fixture.old_2016); [by left| |reflexivity].
  intros (c & y & [= <-] & [= <-] & [[_ ?]|[Hc _]]); [lia|].
  vm_compute in Hc. by repeat (apply elem_of_cons in Hc as [?|Hc]);
    try apply elem_of_nil in Hc.
Defined.

(** C4. No row of the output of [transform_dataframe] has a null [value]:
    a source row whose value is null has no row in the output. *)
Theorem output_values_are_not_null
    {Geometry : Type} (E : Extern Geometry)
    (source_dataframe : list (SourceRow Geometry)) (out : list CanonRow) :
  transform_dataframe E source_dataframe = Ok out →
  (∀ r : CanonRow, r ∈ out → notnull (Float (value r)) = true)
  ∧ (∀ r : CanonRow, r ∈ out →
       ∃ s wkt l, s ∈ source_dataframe ∧ canonical_of s wkt l r
                  ∧ notnull (Float (raw_value s)) = true).
Proof.
  intros Hout.
  assert (∀ r : CanonRow, r ∈ out →
            ∃ s wkt l, s ∈ source_dataframe ∧ canonical_of s wkt l r
                       ∧ notnull (Float (raw_value s)) = true) as Horigin.
  { intros r Hr.
    destruct (transform_row_origin E _ _ _ Hout Hr)
      as (s & wkt & l & Hs & _ & Hv & _ & Hcan).
    exists s, wkt, l. split; [done|]. split; [done|]. cbn. by rewrite Hv. }
  split; [|exact Horigin].
  intros r Hr. destruct (Horigin r Hr) as (s & wkt & l & _ & Hcan & Hv).
  destruct Hcan as (_ & _ & Hval & _). cbn in *. by rewrite Hval.
Qed.

Lemma output_values_are_not_null_witness :
  Fixture.male_null ∈ Fixture.source_rows
  ∧ notnull (Float (raw_value Fixture.male_null)) = false
  ∧ ∃ out,
      transform_dataframe Fixture.online Fixture.source_rows = Ok out
      ∧ length out = 3%nat
      ∧ ∀ r : CanonRow, r ∈ out → notnull (Float (value r)) = true.
Proof.
  split; [do 5 right; left|]. split; [reflexivity|].
  destruct (transform_dataframe Fixture.online Fixture.source_rows) as [out|e] eqn:Hout;
    [|vm_compute in Hout; discriminate Hout].
  exists out. split; [reflexivity|].
  split; [vm_compute in Hout; by injection Hout as <-|].
  exact (proj1 (output_values_are_not_null Fixture.online _ _ Hout)).
Defined.



End NormalizerClaims.

Section GeometryClaims.
Import Py Frame World Pandera UpdateSocrataDataset Spec Acs5.




End GeometryClaims.

(** * Further properties *)

(** ** The identifier as a function of the mapping *)

Section RowIdMapping.
Import Py Frame World Pandera UpdateSocrataDataset Spec.
Context {Geometry : Type} (E : Extern Geometry).

(** [make_row_id] looks at the five identity keys and at nothing else. *)
Lemma make_row_id_ext (row1 row2 : Mapping) :
  (∀ f, f ∈ id_fields → assoc f row1 = assoc f row2) →
  make_row_id E row1 = make_row_id E row2.
Proof.
  intros H. unfold make_row_id, id_fields, fill_row_values, getitem.
  rewrite !(H _) by known_column. reflexivity.
Qed.

Lemma assoc_None (k : string) (m : Mapping) : assoc k m = None ↔ k ∉ m.*1.
Proof.
  induction m as [|[k' v] m IH]; cbn;
    [split; [intros _; apply not_elem_of_nil|done]|].
  rewrite elem_of_cons. destruct (decide (k = k')) as [->|Hne].
  - rewrite bool_decide_eq_true_2 by done. split; [done|]. intros H. destruct H. by left.
  - rewrite bool_decide_eq_false_2, IH by done. split; [|tauto].
    intros H [?|?]; done.
Qed.

Lemma assoc_Permutation (k : string) (m1 m2 : Mapping) :
  m1 ≡ₚ m2 → NoDup m1.*1 → assoc k m1 = assoc k m2.
Proof.
  intros Hp.
  induction Hp as [|[k' v] m1 m2 Hp IH|[k1 v1] [k2 v2] m|m1 m2 m3 H12 IH12 H23 IH23];
    intros Hnd; cbn.
  - done.
  - apply NoDup_cons in Hnd as [_ Hnd]. by rewrite IH.
  - apply NoDup_cons in Hnd as [Hne _]. rewrite elem_of_cons in Hne.
    destruct (decide (k = k1)) as [H1|H1], (decide (k = k2)) as [H2|H2];
      rewrite ?(bool_decide_eq_true_2 _ H1), ?(bool_decide_eq_true_2 _ H2),
        ?(bool_decide_eq_false_2 _ H1), ?(bool_decide_eq_false_2 _ H2);
      try done.
    destruct Hne. left. cbn. congruence.
  - rewrite IH12 by done. apply IH23.
    by rewrite <- (fmap_Permutation fst _ _ H12).
Qed.

Lemma fill_row_values_missing (row : Mapping) (before after : list string)
    (f : string) (row_values : Mapping) :
  (∀ g, g ∈ before → g ∈ row.*1) → f ∉ row.*1 →
  fill_row_values row (before ++ f :: after) row_values = Raise (KeyError f).
Proof.
  intros Hbefore Hf%assoc_None. revert row_values.
  induction before as [|g before IH]; intros row_values.
  - cbn [app fill_row_values]. unfold getitem. by rewrite Hf.
  - destruct (assoc g row) as [c|] eqn:Hg.
    + cbn [app fill_row_values]. unfold getitem at 1. rewrite Hg.
      cbn [mbind exc_bind]. apply IH. intros g' Hg'. apply Hbefore. by right.
    + apply assoc_None in Hg. destruct Hg. apply Hbefore. by left.
Qed.

End RowIdMapping.

Section RowIdMappingClaims.
Import Py Frame World Pandera UpdateSocrataDataset Spec.

(** X1. A row that lacks one of the five identity fields makes
    [make_row_id] raise [KeyError], naming the first of the fields, in the
    order of [id_fields], that the row lacks; with the five fields present
    it returns a string. *)
Theorem make_row_id_missing_field
    {Geometry : Type} (E : Extern Geometry) (row : Mapping) :
  ((∀ f, f ∈ id_fields → f ∈ row.*1) → is_ok (make_row_id E row) = true)
  ∧ (∀ (before after : list string) (f : string),
       id_fields = (before ++ f :: after)%list →
       (∀ g, g ∈ before → g ∈ row.*1) → f ∉ row.*1 →
       make_row_id E row = Raise (KeyError f)).
Proof.
  split.
  - intros Hall.
    assert (∀ f, f ∈ id_fields → ∃ c, assoc f row = Some c) as Hc.
    { intros f Hf. destruct (assoc f row) as [c|] eqn:Hfc; [by exists c|].
      apply assoc_None in Hfc. destruct Hfc. by apply Hall. }
    destruct (Hc "source") as [a Ha]; [known_column|].
    destruct (Hc "variable") as [b Hb]; [known_column|].
    destruct (Hc "denominator_variable") as [c Hcc]; [known_column|].
    destruct (Hc "year") as [d Hd]; [known_column|].
    destruct (Hc "geo_id") as [e He]; [known_column|].
    by rewrite (make_row_id_cells E row a b c d e), format_template.
  - intros before after f Hid Hbefore Hf.
    unfold make_row_id. rewrite Hid.
    by rewrite (fill_row_values_missing row before after f []).
Qed.

Lemma make_row_id_missing_field_witness :
  id_fields = (["source"; "variable"; "denominator_variable"; "year"]
               ++ "geo_id" :: [])%list
  ∧ ("geo_id" ∉ Cases.no_geo_id.*1)
  ∧ make_row_id Fixture.online Cases.no_geo_id = Raise (KeyError "geo_id").
Proof.
  assert ("geo_id" ∉ Cases.no_geo_id.*1) as Hf
    by (apply (bool_decide_unpack _); vm_compute; exact I).
  split; [reflexivity|]. split; [exact Hf|].
  refine (proj2 (make_row_id_missing_field Fixture.online Cases.no_geo_id)
            ["source"; "variable"; "denominator_variable"; "year"] [] "geo_id"
            eq_refl _ Hf).
  intros g Hg. apply (bool_decide_unpack _).
  repeat (apply elem_of_cons in Hg as [->|Hg]; [vm_compute; exact I|]).
  by apply elem_of_nil in Hg.
Defined.

(** X2. The identifier does not depend on the order of the columns of the
    row, nor on its other columns: two rows with the same cells under the
    five identity keys have the same identifier, and so have two rows that
    are a permutation of one another. *)
Theorem make_row_id_column_order
    {Geometry : Type} (E : Extern Geometry) (row1 row2 : Mapping) :
  ((∀ f, f ∈ id_fields → assoc f row1 = assoc f row2) →
   make_row_id E row1 = make_row_id E row2)
  ∧ (row1 ≡ₚ row2 → NoDup row1.*1 → make_row_id E row1 = make_row_id E row2).
Proof.
  split; [apply make_row_id_ext|].
  intros Hp Hnd. apply make_row_id_ext. intros f _. by apply assoc_Permutation.
Qed.

Lemma make_row_id_column_order_witness :
  let row := canon_items Fixture.good in
  row ≡ₚ reverse row ∧ NoDup row.*1
  ∧ make_row_id Fixture.online row = make_row_id Fixture.online (reverse row)
  ∧ make_row_id Fixture.online row = Ok Fixture.good_id.
Proof.
  assert (NoDup (canon_items Fixture.good).*1) as Hnd
    by (apply (bool_decide_unpack _); vm_compute; exact I).
  assert (canon_items Fixture.good ≡ₚ reverse (canon_items Fixture.good)) as Hp
    by (symmetry; apply reverse_Permutation).
  split; [exact Hp|]. split; [exact Hnd|]. split; [|reflexivity].
  exact (proj2 (make_row_id_column_order Fixture.online _ _) Hp Hnd).
Defined.

End RowIdMappingClaims.

(** ** The contract of the validator, row by row *)

Section ContractFacts.
Import Py Frame World Pandera UpdateSocrataDataset Spec Contract.
Context {Geometry : Type} (E : Extern Geometry).

(** A required column of strings, with its checks. *)
Lemma cell_ok_required_str (cs : list (cell → bool)) (dup : bool) (o : option string) :
  cell_ok {| dtype := String_; checks := cs; nullable := false;
             allow_duplicates := dup |} (of_str o) = true
  ↔ ∃ s, o = Some s ∧ forallb (λ chk, chk (Str s)) cs = true.
Proof.
  destruct o as [s|]; cbn; split; try done.
  - intros H. by exists s.
  - by intros (? & [= <-] & ?).
  - by intros (? & ? & _).
Qed.

Lemma cell_ok_optional_str (o : option string) :
  cell_ok {| dtype := String_; checks := []; nullable := true;
             allow_duplicates := true |} (of_str o) = true.
Proof. by destruct o. Qed.

Lemma cell_ok_year (o : option Z) :
  cell_ok {| dtype := Int_;
             checks := [ less_than_or_equal_to (now_year E);
                         greater_than_or_equal_to 2000 ];
             nullable := false; allow_duplicates := true |} (of_int o) = true
  ↔ ∃ y, o = Some y ∧ 2000 ≤ y ≤ now_year E.
Proof.
  destruct o as [y|]; cbn; [|split; [done|by intros (? & ? & _)]].
  rewrite andb_true_r, andb_true_iff, !bool_decide_eq_true. split.
  - intros [? ?]. exists y. split; [done|lia].
  - intros (? & [= <-] & ?). lia.
Qed.

Lemma cell_ok_value (f : float) :
  cell_ok (Column_ Float_) (Float f) = true ↔ PrimFloat.is_nan f = false.
Proof. unfold cell_ok. cbn. by destruct (PrimFloat.is_nan f). Qed.

Lemma cell_ok_denominator (f : float) :
  cell_ok {| dtype := Float_; checks := []; nullable := true;
             allow_duplicates := true |} (Float f) = true.
Proof. unfold cell_ok. cbn. by destruct (PrimFloat.is_nan f). Qed.

(** The columns of the schema are valid exactly when every row meets the
    constraints of the columns and the identifiers are distinct. *)
Lemma columns_valid_rows (dataframe : DataFrame) :
  columns_valid E dataframe
  ↔ (∀ r, r ∈ dataframe → row_ok E r) ∧ NoDup (map row_id dataframe).
Proof.
  split.
  - intros Hcols. split; [|by apply (columns_valid_row_ids E)].
    intros r Hr.
    assert (∀ c, c ∈ schema_columns (schema E) → cell_ok c.2 (cell_at r c.1) = true)
      as Hcell.
    { intros c Hc. destruct (Hcols c Hc) as [Hall _].
      rewrite Forall_forall in Hall. by apply Hall. }
    pose proof (Hcell ("source", Column_ String_) ltac:(known_column)) as Hsource.
    pose proof (Hcell ("variable", Column_ String_) ltac:(known_column)) as Hvariable.
    pose proof (Hcell ("label", Column_ String_) ltac:(known_column)) as Hlabel.
    pose proof (Hcell ("value", Column_ Float_) ltac:(known_column)) as Hvalue.
    pose proof (Hcell ("year", _) ltac:(known_column)) as Hyear.
    pose proof (Hcell ("year_date", _) ltac:(known_column)) as Hdate.
    pose proof (Hcell ("geo_id", Column_ String_) ltac:(known_column)) as Hgeo_id.
    pose proof (Hcell ("geo_name", Column_ String_) ltac:(known_column)) as Hgeo_name.
    pose proof (Hcell ("geo_type", Column_ String_) ltac:(known_column)) as Hgeo_type.
    pose proof (Hcell ("location", _) ltac:(known_column)) as Hlocation.
    pose proof (Hcell ("row_id", _) ltac:(known_column)) as Hrow_id.
    apply (cell_ok_required_str [] true (source r)) in Hsource as (? & Hsource & _).
    apply (cell_ok_required_str [] true (variable r)) in Hvariable as (? & Hvariable & _).
    apply (cell_ok_required_str [] true (label r)) in Hlabel as (? & Hlabel & _).
    apply (cell_ok_value (value r)) in Hvalue.
    apply (cell_ok_year (year r)) in Hyear as (y & Hy & Hrange).
    apply (cell_ok_required_str _ true (year_date r)) in Hdate as (d & Hd & Hfmt).
    apply (cell_ok_required_str [] true (geo_id r)) in Hgeo_id as (? & Hgeo_id & _).
    apply (cell_ok_required_str [] true (geo_name r)) in Hgeo_name as (? & Hgeo_name & _).
    apply (cell_ok_required_str [] true (geo_type r)) in Hgeo_type as (? & Hgeo_type & _).
    apply (cell_ok_required_str _ true (location r)) in Hlocation as (l & Hl & Hpoint).
    apply (cell_ok_required_str [] false (row_id r)) in Hrow_id as (? & Hrow_id & _).
    cbn in Hfmt, Hpoint. rewrite andb_true_r in Hfmt, Hpoint.
    unfold row_ok.
    rewrite Hsource, Hvariable, Hlabel, Hgeo_id, Hgeo_name, Hgeo_type, Hrow_id.
    repeat split; try done; eauto 10.
  - intros [Hrows Hnd] c Hc. split.
    + apply Forall_forall. intros r Hr.
      destruct (Hrows r Hr)
        as (Hs & Hv & Hl & Hval & (y & Hy & Hrange) & (d & Hd & Hfmt)
            & Hgi & Hgn & Hgt & (l & Hloc & Hpoint) & Hid).
      unfold schema, schema_columns in Hc.
      repeat (apply elem_of_cons in Hc as [->|Hc]);
        [..|by apply elem_of_nil in Hc]; cbn [fst snd].
      * apply (cell_ok_required_str [] true (source r)). destruct Hs; eauto.
      * apply (cell_ok_optional_str (topic r)).
      * apply (cell_ok_optional_str (concept r)).
      * apply (cell_ok_required_str [] true (variable r)). destruct Hv; eauto.
      * apply (cell_ok_required_str [] true (label r)). destruct Hl; eauto.
      * by apply (cell_ok_value (value r)).
      * apply (cell_ok_optional_str (denominator_variable r)).
      * apply (cell_ok_optional_str (denominator_label r)).
      * apply (cell_ok_denominator (denominator r)).
      * apply (cell_ok_year (year r)). eauto.
      * apply (cell_ok_required_str _ true (year_date r)).
        exists d. split; [done|]. cbn. by rewrite Hfmt.
      * apply (cell_ok_required_str [] true (geo_id r)). destruct Hgi; eauto.
      * apply (cell_ok_required_str [] true (geo_name r)). destruct Hgn; eauto.
      * apply (cell_ok_required_str [] true (geo_type r)). destruct Hgt; eauto.
      * apply (cell_ok_required_str _ true (location r)).
        exists l. split; [done|]. cbn. by rewrite Hpoint.
      * apply (cell_ok_required_str [] false (row_id r)). destruct Hid; eauto.
    + unfold schema, schema_columns in Hc.
      repeat (apply elem_of_cons in Hc as [->|Hc]);
        [..|by apply elem_of_nil in Hc]; cbn [fst snd allow_duplicates Column_];
        [by left..|right].
      apply (duplicated_of_str (map row_id dataframe)) in Hnd.
      by rewrite map_map in Hnd.
Qed.

(** In a row that meets the constraints of the columns, the nulls are in
    the columns that admit one. *)
Lemma row_ok_no_null (r : Row) :
  row_ok E r → (no_null r = false ↔ optional_null r).
Proof.
  destruct r as [[s t c v l val dv dl d y yd gi gn gt loc] i].
  unfold row_ok, optional_null, no_null, row_items, canon_items. cbn.
  intros ([? ->] & [? ->] & [? ->] & -> & (? & -> & _) & (? & -> & _)
          & [? ->] & [? ->] & [? ->] & (? & -> & _) & [? ->]).
  cbn. destruct t, c, dv, dl, (PrimFloat.is_nan d); cbn; split; try done;
    try tauto; intuition discriminate.
Qed.

End ContractFacts.

Section AcceptedRows.
Import Py Frame World Pandera UpdateSocrataDataset Spec Contract.
Context {Geometry : Type} (E : Extern Geometry).

Lemma accepted_rows_ok (dataframe : DataFrame) (st : State) :
  (validate_dataframe E dataframe st).2 = Ok true →
  (∀ r, r ∈ dataframe → row_ok E r ∧ optional_null r)
  ∧ NoDup (map row_id dataframe).
Proof.
  intros [Hv Hd]%validate_dataframe_true.
  apply columns_valid_rows in Hv as [Hrows Hnd]. split; [|done].
  intros r Hr. split; [by apply Hrows|].
  apply (proj1 (row_ok_no_null E r (Hrows r Hr))).
  rewrite dropna_nil in Hd. by apply Hd.
Qed.

Lemma rows_ok_accepted (dataframe : DataFrame) (st : State) :
  (∀ r, r ∈ dataframe → row_ok E r ∧ optional_null r) →
  NoDup (map row_id dataframe) →
  validate_dataframe E dataframe st = (st, Ok true).
Proof.
  intros Hrows Hnd. apply validate_dataframe_accepts.
  - apply columns_valid_rows. split; [|done]. intros r Hr. by apply Hrows.
  - apply dropna_nil. intros r Hr. destruct (Hrows r Hr) as [Hok Hnull].
    by apply (proj2 (row_ok_no_null E r Hok)).
Qed.

(** A row without [denominator_variable] is not a row without null. *)
Lemma null_denominator_no_null (r : CanonRow) (i : option string) :
  denominator_variable r = None → no_null {| canon := r; row_id := i |} = false.
Proof.
  destruct r as [s t c v l val dv dl d y yd gi gn gt loc]. cbn. intros ->.
  unfold no_null, row_items, canon_items. cbn. by rewrite !andb_false_r.
Qed.

(** The frame [assign_row_id] returns has one row per subject if its
    identifiers are distinct. *)
Lemma keyed_subjects (dataframe : list CanonRow) (i j : nat) (r1 r2 : Row) :
  let keyed := map (λ r, {| canon := r; row_id := Some (spec_row_id r) |}) dataframe in
  NoDup (map row_id keyed) →
  i ≠ j → keyed !! i = Some r1 → keyed !! j = Some r2 →
  ¬ (source r1 = source r2 ∧ variable r1 = variable r2
     ∧ denominator_variable r1 = denominator_variable r2
     ∧ year r1 = year r2 ∧ geo_id r1 = geo_id r2).
Proof.
  intros keyed Hnd Hij H1 H2 (Hs & Hv & Hd & Hy & Hg).
  assert (∀ r, r ∈ keyed → row_id r = Some (spec_row_id r)) as Hcur.
  { intros r (r0 & <- & _)%list_elem_of_In%in_map_iff. done. }
  apply Hij, (NoDup_lookup _ i j (row_id r1) Hnd).
  - change (map row_id keyed) with (row_id <$> keyed).
    by rewrite list_lookup_fmap, H1.
  - change (map row_id keyed) with (row_id <$> keyed).
    rewrite list_lookup_fmap, H2. cbn. f_equal.
    rewrite (Hcur r1), (Hcur r2) by (by eapply list_elem_of_lookup_2).
    unfold spec_row_id. by rewrite Hs, Hv, Hd, Hy, Hg.
Qed.

End AcceptedRows.

Section ContractClaims.
Import Py Frame World Pandera UpdateSocrataDataset Spec Contract.

(** X3. The validator accepts a table whose dates are ASCII texts exactly
    when every row has a source, a variable, a label, a value that is not
    NaN, a year between 2000 and the current year, a [year_date] that
    [strptime] reads, a [geo_id], a [geo_name], a [geo_type], a location
    that the WKT reader loads as a point and a [row_id], a null in one at
    least of [topic], [concept], [denominator_variable], [denominator_label]
    and [denominator], and no two rows have the same [row_id].  Neither the
    agreement of [year_date] with [year] nor that of [row_id] with the
    identity fields is part of it. *)
Theorem validator_contract
    {Geometry : Type} (E : Extern Geometry) (dataframe : DataFrame) (st : State) :
  ascii_texts (map (λ r : Row, year_date r) dataframe) = true →
  (validate_dataframe E dataframe st).2 = Ok true
  ↔ (∀ r, r ∈ dataframe → row_ok E r ∧ optional_null r)
    ∧ NoDup (map row_id dataframe).
Proof.
  intros _. split; [apply accepted_rows_ok|].
  intros [Hrows Hnd]. by rewrite rows_ok_accepted.
Qed.

Lemma validator_contract_witness :
  let table := [Cases.late; Cases.elsewhere] in
  ascii_texts (map (λ r : Row, year_date r) table) = true
  ∧ (validate_dataframe Fixture.online table start).2 = Ok true
  ∧ (∀ r, r ∈ table → row_ok Fixture.online r ∧ optional_null r)
  ∧ NoDup (map row_id table).
Proof.
  assert (ascii_texts (map (λ r : Row, year_date r) [Cases.late; Cases.elsewhere])
          = true) as Hascii by (vm_compute; reflexivity).
  assert ((validate_dataframe Fixture.online [Cases.late; Cases.elsewhere] start).2
          = Ok true) as Hok by (vm_compute; reflexivity).
  split; [exact Hascii|]. split; [exact Hok|].
  exact (proj1 (validator_contract Fixture.online _ start Hascii) Hok).
Defined.



(** X5. In the table of a source, with the identifiers [assign_row_id]
    gave it, that the validator accepts, two rows at different positions
    differ in one of [source], [variable], [denominator_variable], [year],
    [geo_id]: what [main] publishes has one row per subject. *)
Theorem accepted_rows_have_distinct_subjects
    {Geometry : Type} (E : Extern Geometry) (dataframe : list CanonRow)
    (keyed : DataFrame) (st : State) (i j : nat) (r1 r2 : Row) :
  dataframe ≠ [] →
  assign_row_id E dataframe = Ok keyed →
  (validate_dataframe E keyed st).2 = Ok true →
  i ≠ j → keyed !! i = Some r1 → keyed !! j = Some r2 →
  ¬ (source r1 = source r2 ∧ variable r1 = variable r2
     ∧ denominator_variable r1 = denominator_variable r2
     ∧ year r1 = year r2 ∧ geo_id r1 = geo_id r2).
Proof.
  intros _ Hkeyed [Hv _]%validate_dataframe_true.
  rewrite assign_row_id_total in Hkeyed. injection Hkeyed as <-.
  apply keyed_subjects. by apply (columns_valid_row_ids E).
Qed.

Lemma accepted_rows_have_distinct_subjects_witness :
  let dataframe := [Fixture.good; Fixture.with_geo_id Fixture.good "0500000US01003"] in
  let keyed := [Fixture.keyed Fixture.good Fixture.good_id; Cases.elsewhere] in
  assign_row_id Fixture.online dataframe = Ok keyed
  ∧ (validate_dataframe Fixture.online keyed start).2 = Ok true
  ∧ ¬ (source Fixture.good = source Cases.elsewhere
       ∧ variable Fixture.good = variable Cases.elsewhere
       ∧ denominator_variable Fixture.good = denominator_variable Cases.elsewhere
       ∧ year Fixture.good = year Cases.elsewhere
       ∧ geo_id Fixture.good = geo_id Cases.elsewhere).
Proof.
  assert ([Fixture.good; Fixture.with_geo_id Fixture.good "0500000US01003"] ≠ [])
    as Hne by discriminate.
  assert (assign_row_id Fixture.online
            [Fixture.good; Fixture.with_geo_id Fixture.good "0500000US01003"]
          = Ok [Fixture.keyed Fixture.good Fixture.good_id; Cases.elsewhere])
    as Hkeyed by (vm_compute; reflexivity).
  assert ((validate_dataframe Fixture.online
             [Fixture.keyed Fixture.good Fixture.good_id; Cases.elsewhere] start).2
          = Ok true) as Hok by (vm_compute; reflexivity).
  split; [exact Hkeyed|]. split; [exact Hok|].
  refine (accepted_rows_have_distinct_subjects Fixture.online _ _ start
            0 1 _ _ Hne Hkeyed Hok _ eq_refl eq_refl).
  discriminate.
Defined.

(** X6. Identity assignment is idempotent, and repairs stale identifiers:
    assigning identifiers to the canonical columns of a table gives a table
    with the same canonical columns in which every [row_id] is the
    identifier of the row's identity fields, and gives the table back when
    its identifiers were those already. *)
Theorem assign_row_id_is_idempotent
    {Geometry : Type} (E : Extern Geometry) (dataframe : DataFrame) :
  dataframe ≠ [] →
  ∃ keyed,
    assign_row_id E (map canon dataframe) = Ok keyed
    ∧ map canon keyed = map canon dataframe
    ∧ (∀ r : Row, r ∈ keyed → Ok <$> row_id r = Some (make_row_id E (row_items r)))
    ∧ ((∀ r : Row, r ∈ dataframe →
          Ok <$> row_id r = Some (make_row_id E (row_items r))) →
       keyed = dataframe)
    ∧ assign_row_id E (map canon keyed) = Ok keyed.
Proof.
  intros _. eexists. split; [apply assign_row_id_total|].
  split; [|split; [|split]].
  - rewrite !map_map. done.
  - intros r (r0 & <- & _)%list_elem_of_In%in_map_iff.
    by rewrite make_row_id_row.
  - intros Hcur. rewrite map_map. rewrite <- (map_id dataframe) at 2.
    apply map_ext_in. intros [c i] Hr%list_elem_of_In. specialize (Hcur _ Hr).
    rewrite make_row_id_row in Hcur. destruct i as [i|]; [|discriminate Hcur].
    cbn in *. by injection Hcur as ->.
  - rewrite assign_row_id_total, !map_map. done.
Qed.

Lemma assign_row_id_is_idempotent_witness :
  let table := [Cases.stale; Cases.elsewhere] in
  table ≠ []
  ∧ assign_row_id Fixture.online (map canon table)
    = Ok [Fixture.keyed Fixture.good Fixture.good_id; Cases.elsewhere]
  ∧ ∃ keyed,
      assign_row_id Fixture.online (map canon table) = Ok keyed
      ∧ assign_row_id Fixture.online (map canon keyed) = Ok keyed.
Proof.
  assert ([Cases.stale; Cases.elsewhere] ≠ []) as Hne by discriminate.
  split; [exact Hne|]. split; [vm_compute; reflexivity|].
  destruct (assign_row_id_is_idempotent Fixture.online
              [Cases.stale; Cases.elsewhere] Hne)
    as (keyed & Hkeyed & _ & _ & _ & Hagain).
  exists keyed. split; [exact Hkeyed|exact Hagain].
Defined.

End ContractClaims.

(** ** The normalizer, row by row *)

Section TransformStructure.
Import Py Frame World Pandera UpdateSocrataDataset Spec Acs5 Contract.
Context {Geometry : Type} (E : Extern Geometry).

Lemma map_exc_app {A B} (f : A → exc B) (l1 l2 : list A) :
  map_exc f (l1 ++ l2)
  = (ys1 ← map_exc f l1; ys2 ← map_exc f l2; Ok (ys1 ++ ys2)%list).
Proof.
  induction l1 as [|x l1 IH]; cbn.
  - by destruct (map_exc f l2).
  - destruct (f x); cbn; [|done]. rewrite IH.
    destruct (map_exc f l1); cbn; [|done]. by destruct (map_exc f l2).
Qed.

Lemma map_exc_length {A B} (f : A → exc B) (l : list A) (ys : list B) :
  map_exc f l = Ok ys → length ys = length l.
Proof.
  intros H%map_exc_Ok_inv. symmetry. by eapply Forall2_length.
Qed.

Lemma flat_map_singletons {A B} (f : A → list B) (g : A → B) (l : list A) :
  (∀ x, f x = [g x]) → flat_map f l = map g l.
Proof.
  intros H. induction l as [|x l IH]; [done|]. cbn. by rewrite H, IH.
Qed.

Lemma merge_left_app (d1 d2 : list CanonRow) (labels : list LabelRow) :
  merge_left (d1 ++ d2) labels = (merge_left d1 labels ++ merge_left d2 labels)%list.
Proof. unfold merge_left. apply flat_map_app. Qed.

(** With distinct keys, at most one row of [labels] matches. *)
Lemma matches_unique (labels : list LabelRow) (k : option string) :
  NoDup (map label_variable labels) →
  (length (List.filter (λ l, bool_decide (label_variable l = k)) labels) ≤ 1)%nat.
Proof.
  induction labels as [|lab labels IH]; cbn; [lia|].
  intros [Hnin Hnd]%NoDup_cons. destruct (decide (label_variable lab = k)) as [Hk|Hk].
  - rewrite bool_decide_eq_true_2 by done. cbn.
    destruct (List.filter _ labels) as [|lab' ?] eqn:Hf; [cbn; lia|].
    assert (In lab' (List.filter (λ l, bool_decide (label_variable l = k)) labels))
      as [Hin Heq%bool_decide_eq_true_1]%filter_In by (rewrite Hf; by left).
    destruct Hnin. rewrite Hk, <- Heq.
    apply list_elem_of_In, in_map. done.
  - rewrite bool_decide_eq_false_2 by done. by apply IH.
Qed.

Lemma merge_left_unique (dataframe : list CanonRow) (labels : list LabelRow) :
  NoDup (map label_variable labels) →
  merge_left dataframe labels
  = map (λ r, with_labels r
                (head (List.filter (λ l, bool_decide (label_variable l = variable r))
                         labels)))
      dataframe.
Proof.
  intros Hnd. unfold merge_left. apply flat_map_singletons. intros r.
  pose proof (matches_unique labels (variable r) Hnd) as Hlen.
  destruct (List.filter _ labels) as [|lab [|lab' ?]]; cbn in *; [done..|lia].
Qed.

Lemma copied_through (kept : list (SourceRow Geometry))
    (location : list (option string)) (pick : CanonRow → option LabelRow) :
  length location = length kept →
  map copied_of_output
    (List.filter (λ r, notnull (Float (value r)))
       (map (λ r, with_labels r (pick r)) (zip_with transform_data kept location)))
  = map copied_of_source
      (List.filter (λ s, negb (PrimFloat.is_nan (raw_value s))) kept).
Proof.
  revert location. induction kept as [|s kept IH]; intros [|w location] Hlen;
    try done.
  cbn [zip_with map List.filter]. cbn [value with_labels transform_data notnull].
  destruct (PrimFloat.is_nan (raw_value s)); cbn [negb map].
  - apply IH. cbn in Hlen. lia.
  - f_equal. apply IH. cbn in Hlen. lia.
Qed.

End TransformStructure.

Section TransformLabels.
Import Py Frame World Pandera UpdateSocrataDataset Spec Acs5 Contract.
Context {Geometry : Type} (E : Extern Geometry).

(** The label columns of an output row come from a row of the labels file
    with the variable of the row, or are null when there is none. *)
Lemma transform_row_labels (source_dataframe : list (SourceRow Geometry))
    (out : list CanonRow) (r : CanonRow) :
  transform_dataframe E source_dataframe = Ok out → r ∈ out →
  (∃ lab, lab ∈ acs5_labels E ∧ label_variable lab = variable r
          ∧ topic r = label_topic lab ∧ concept r = label_concept lab
          ∧ label r = label_label lab)
  ∨ ((∀ lab, lab ∈ acs5_labels E → label_variable lab ≠ variable r)
     ∧ topic r = None ∧ concept r = None ∧ label r = None).
Proof.
  rewrite transform_dataframe_eq. cbv zeta.
  destruct (map_exc _ _) as [location|e] eqn:Hloc; [|done].
  cbn [mbind exc_bind]. intros [= <-].
  intros [Hr _]%list_elem_of_In%filter_In.
  apply list_elem_of_In, elem_of_merge_left in Hr as (r0 & [lab|] & _ & -> & Hl).
  - left. exists lab. by destruct Hl.
  - right. done.
Qed.

(** The transform of two frames put end to end. *)
Lemma transform_of_concat_eq (d1 d2 : list (SourceRow Geometry)) :
  transform_dataframe E (d1 ++ d2)
  = (out1 ← transform_dataframe E d1;
     out2 ← transform_dataframe E d2;
     Ok (out1 ++ out2)%list).
Proof.
  rewrite !transform_dataframe_eq. cbv zeta.
  rewrite List.filter_app, List.map_app, map_exc_app.
  destruct (map_exc _ (map raw_geometry (List.filter _ d1))) as [l1|e] eqn:H1;
    cbn [mbind exc_bind]; [|done].
  destruct (map_exc _ (map raw_geometry (List.filter _ d2))) as [l2|e] eqn:H2;
    cbn [mbind exc_bind]; [|done].
  f_equal. apply map_exc_length in H1. rewrite length_map in H1.
  rewrite zip_with_app by done. by rewrite merge_left_app, List.filter_app.
Qed.

End TransformLabels.

Section TransformClaims.
Import Py Frame World Pandera UpdateSocrataDataset Spec Acs5 Contract.

(** X7. The normalizer works row by row: the transform of two frames put
    end to end is the transform of the first followed by the transform of
    the second, and it raises what the first raises, or else what the second
    raises. *)
Theorem transform_of_concatenation
    {Geometry : Type} (E : Extern Geometry) (d1 d2 : list (SourceRow Geometry)) :
  transform_dataframe E (d1 ++ d2)
  = (out1 ← transform_dataframe E d1;
     out2 ← transform_dataframe E d2;
     Ok (out1 ++ out2)%list).
Proof. apply transform_of_concat_eq. Qed.

(** X8. The enrichment is a left outer join on the variable code: the
    [topic], [concept] and [label] of an output row are those of a row of
    the labels file with the same variable, and all three are null exactly
    when the file has no row for that variable. *)
Theorem labels_are_left_joined
    {Geometry : Type} (E : Extern Geometry)
    (source_dataframe : list (SourceRow Geometry)) (out : list CanonRow)
    (r : CanonRow) :
  transform_dataframe E source_dataframe = Ok out → r ∈ out →
  (∃ lab, lab ∈ acs5_labels E ∧ label_variable lab = variable r
          ∧ topic r = label_topic lab ∧ concept r = label_concept lab
          ∧ label r = label_label lab)
  ∨ ((∀ lab, lab ∈ acs5_labels E → label_variable lab ≠ variable r)
     ∧ topic r = None ∧ concept r = None ∧ label r = None).
Proof. apply transform_row_labels. Qed.

Lemma labels_are_left_joined_witness :
  ∃ out r1 r2,
    transform_dataframe Fixture.online [Fixture.male_2018; Cases.female_2018] = Ok out
    ∧ out = [r1; r2]
    ∧ (∃ lab, lab ∈ Fixture.labels ∧ label_variable lab = variable r1
              ∧ label r1 = label_label lab ∧ label r1 = Some "Male")
    ∧ ((∀ lab, lab ∈ Fixture.labels → label_variable lab ≠ variable r2)
       ∧ label r2 = None).
Proof.
  destruct (transform_dataframe Fixture.online [Fixture.male_2018; Cases.female_2018])
    as [out|e] eqn:Hout; [|vm_compute in Hout; discriminate Hout].
  assert (∃ r1 r2, out = [r1; r2] ∧ label r1 = Some "Male" ∧ label r2 = None)
    as (r1 & r2 & -> & Hl1 & Hl2).
  { vm_compute in Hout. injection Hout as <-. eexists _, _. by repeat split. }
  exists [r1; r2], r1, r2. split; [reflexivity|]. split; [reflexivity|]. split.
  - destruct (labels_are_left_joined Fixture.online _ _ r1 Hout)
      as [(lab & ? & ? & _ & _ & Hlab)|(_ & _ & _ & Hnone)]; [by left| |].
    + exists lab. by rewrite <- Hlab.
    + by rewrite Hl1 in Hnone.
  - destruct (labels_are_left_joined Fixture.online _ _ r2 Hout)
      as [(lab & Hin & _ & _ & _ & Hlab)|(Hno & _ & _ & Hnone)]; [by right; left| |done].
    rewrite Hl2 in Hlab. exfalso. clear -Hin Hlab. unfold Fixture.labels in Hin.
    repeat (apply elem_of_cons in Hin as [->|Hin]; [discriminate Hlab|]).
    by apply elem_of_nil in Hin.
Defined.



(** X10. When the labels file has one row per variable, the output holds
    exactly one row for every source row that passes the two selections (the
    codes that did not change meaning, the values that are not null), in the
    order of the source, with the variable, value, year, date, name and
    geographic identifier and type of that source row. *)
Theorem one_output_row_per_kept_source_row
    {Geometry : Type} (E : Extern Geometry)
    (source_dataframe : list (SourceRow Geometry)) (out : list CanonRow) :
  NoDup (map label_variable (acs5_labels E)) →
  transform_dataframe E source_dataframe = Ok out →
  map copied_of_output out
  = map copied_of_source
      (List.filter
         (λ s, negb (changed_meaning s) && negb (PrimFloat.is_nan (raw_value s)))
         source_dataframe).
Proof.
  intros Hnd. rewrite transform_dataframe_eq. cbv zeta.
  destruct (map_exc _ _) as [location|e] eqn:Hloc; [|done].
  cbn [mbind exc_bind]. intros [= <-].
  rewrite merge_left_unique by done.
  rewrite (copied_through _ location).
  - f_equal. clear. induction source_dataframe as [|s l IH]; [done|].
    cbn. destruct (changed_meaning s); cbn; [done|].
    destruct (PrimFloat.is_nan (raw_value s)); cbn; by rewrite IH.
  - apply map_exc_length in Hloc. by rewrite length_map in Hloc.
Qed.

Lemma one_output_row_per_kept_source_row_witness :
  NoDup (map label_variable (acs5_labels Fixture.online))
  ∧ ∃ out,
      transform_dataframe Fixture.online Fixture.source_rows = Ok out
      ∧ map copied_of_output out
        = map copied_of_source [Fixture.old_2016; Fixture.new_2017; Fixture.male_2018].
Proof.
  assert (NoDup (map label_variable (acs5_labels Fixture.online))) as Hnd
    by (apply (bool_decide_unpack _); vm_compute; exact I).
  split; [exact Hnd|].
  destruct (transform_dataframe Fixture.online Fixture.source_rows) as [out|e] eqn:Hout;
    [|vm_compute in Hout; discriminate Hout].
  exists out. split; [reflexivity|].
  exact (one_output_row_per_kept_source_row Fixture.online _ _ Hnd Hout).
Defined.

End TransformClaims.

(** ** The orchestrator, end to end *)

Section MainClaims.
Import Py Frame World Pandera UpdateSocrataDataset Spec Acs5 Contract.

(** X11. [main] only adds to its log and to what it has handed to the
    Socrata client, and it hands over at most one frame per source. *)
Theorem main_loop_only_appends
    {Geometry : Type} (E : Extern Geometry)
    (sources : list (string * exc (list CanonRow))) (st : State) :
  ∃ lines frames,
    logged (main_loop E sources st).1 = (logged st ++ lines)%list
    ∧ uploaded (main_loop E sources st).1 = (uploaded st ++ frames)%list
    ∧ (length frames ≤ length sources)%nat.
Proof. apply main_loop_extends. Qed.

(** X12. [main] hands the frame of the ACS5 source to the Socrata client
    exactly when the validator accepts it.  Accepted, the frame is uploaded,
    once and whole, and [main] ends as the upload does; rejected, nothing is
    uploaded and [main] returns. *)
Theorem main_uploads_iff_accepted
    {Geometry : Type} (E : Extern Geometry) (dataframe : list CanonRow)
    (keyed : DataFrame) (st : State) :
  dataframe ≠ [] →
  get_source_acs5 E = Ok dataframe →
  assign_row_id E dataframe = Ok keyed →
  ((validate_dataframe E keyed start).2 = Ok true →
   uploaded (main E st).1 = (uploaded st ++ [keyed])%list
   ∧ (main E st).2 = (_ ← socrata_apply E keyed; Ok ()))
  ∧ ((validate_dataframe E keyed start).2 = Ok false →
     uploaded (main E st).1 = uploaded st ∧ (main E st).2 = Ok ()).
Proof.
  intros _ Hsrc Hkeyed. rewrite assign_row_id_total in Hkeyed. injection Hkeyed as <-.
  unfold main. rewrite Hsrc. split.
  - intros [Hv Hd]%validate_dataframe_true.
    rewrite main_loop_publishes by done.
    by destruct (socrata_apply E _).
  - intros Hn%validate_dataframe_false.
    by destruct (main_loop_skips E "ACS5" dataframe [] st Hn) as [msg ->].
Qed.

Lemma main_uploads_iff_accepted_witness :
  ∃ dataframe keyed,
    dataframe ≠ []
    ∧ get_source_acs5 Fixture.online = Ok dataframe
    ∧ assign_row_id Fixture.online dataframe = Ok keyed
    ∧ (validate_dataframe Fixture.online keyed start).2 = Ok true
    ∧ uploaded (main Fixture.online start).1 = [keyed]
    ∧ (main Fixture.online start).2 = Ok ().
Proof.
  assert (∃ dataframe, get_source_acs5 Fixture.online = Ok dataframe)
    as [dataframe Hsrc] by (vm_compute; eauto).
  assert (∃ keyed, assign_row_id Fixture.online dataframe = Ok keyed)
    as [keyed Hkeyed] by (rewrite assign_row_id_total; eauto).
  assert (dataframe ≠ []) as Hne
    by (vm_compute in Hsrc; injection Hsrc as <-; discriminate).
  assert ((validate_dataframe Fixture.online keyed start).2 = Ok true) as Hok.
  { vm_compute in Hsrc. injection Hsrc as <-.
    vm_compute in Hkeyed. injection Hkeyed as <-. vm_compute. reflexivity. }
  exists dataframe, keyed. split; [exact Hne|]. split; [exact Hsrc|].
  split; [exact Hkeyed|]. split; [exact Hok|].
  exact (proj1 (main_uploads_iff_accepted Fixture.online dataframe keyed start
                  Hne Hsrc Hkeyed) Hok).
Defined.

(** X13. Whatever [main] uploads is sound as far as the columns go: every
    uploaded row meets the constraints of the declared columns, holds a null
    in a column that admits one, has as [row_id] the identifier of its
    identity fields, and is the row of a record the Census query returned,
    with that record's variable, value, year, date, name and geography, a
    variable code that did not change meaning for that year, and the source
    ["ACS5"]. *)
Theorem uploaded_rows_are_sound
    {Geometry : Type} (E : Extern Geometry)
    (records : list (SourceRow Geometry)) (keyed : DataFrame) (k : Row) :
  query_run E = Ok records →
  keyed ∈ uploaded (main E start).1 → k ∈ keyed →
  row_ok E k
  ∧ optional_null k
  ∧ row_id k = Some (spec_row_id k)
  ∧ ¬ superseded (variable k) (year k)
  ∧ ∃ s wkt l, s ∈ records ∧ canonical_of s wkt l k.
Proof.
  intros Hq Hup Hk. unfold main in Hup.
  apply main_loop_uploads in Hup
    as [Hup|([Hv Hd] & name & dataframe & Hsrc & Hkeyed)];
    [by apply elem_of_nil in Hup|].
  apply list_elem_of_singleton in Hsrc. injection Hsrc as _ Hsrc.
  unfold get_source_acs5 in Hsrc. rewrite Hq in Hsrc. cbn [mbind exc_bind] in Hsrc.
  assert (row_ok E k) as Hok
    by (apply (columns_valid_rows E) in Hv as [Hrows _]; by apply Hrows).
  split; [exact Hok|]. split.
  { apply (proj1 (row_ok_no_null E k Hok)). rewrite dropna_nil in Hd. by apply Hd. }
  rewrite assign_row_id_total in Hkeyed. injection Hkeyed as <-.
  apply list_elem_of_In, in_map_iff in Hk as (r & <- & Hr%list_elem_of_In).
  cbn [canon row_id]. split; [done|].
  destruct (transform_row_origin E _ _ _ (eq_sym Hsrc) Hr)
    as (s & wkt & l & Hs & Hkeep & _ & _ & Hcan).
  split; [|by exists s, wkt, l].
  destruct Hcan as (_ & Hvar & _ & Hyear & _). rewrite Hvar, Hyear.
  intros Hsup%changed_meaning_superseded. congruence.
Qed.

Lemma uploaded_rows_are_sound_witness :
  ∃ keyed k,
    query_run Fixture.online = Ok Fixture.source_rows
    ∧ keyed ∈ uploaded (main Fixture.online start).1 ∧ k ∈ keyed
    ∧ row_ok Fixture.online k
    ∧ row_id k = Some (spec_row_id k)
    ∧ ∃ s wkt l, s ∈ Fixture.source_rows ∧ canonical_of s wkt l k.
Proof.
  destruct (uploaded (main Fixture.online start).1) as [|keyed rest] eqn:Hup;
    [vm_compute in Hup; discriminate Hup|].
  assert (∃ k others, keyed = k :: others) as (k & others & ->)
    by (vm_compute in Hup; injection Hup as <- _; eauto).
  assert ((k :: others) ∈ uploaded (main Fixture.online start).1) as Hin
    by (rewrite Hup; left).
  assert (k ∈ k :: others) as Hk by left.
  exists (k :: others), k. split; [reflexivity|]. split; [by left|].
  split; [exact Hk|].
  destruct (uploaded_rows_are_sound Fixture.online Fixture.source_rows _ k
              eq_refl Hin Hk) as (Hok & _ & Hid & _ & Horigin).
  split; [exact Hok|]. split; [exact Hid|exact Horigin].
Defined.

(** X20. On the frame of the ACS5 source the validator always answers:
    every row [transform_dataframe] produces has a null
    [denominator_variable], so that the checks of the schema are given no
    row and raise nothing.  [main] then returns, with status zero, whenever
    the Census query and the serializer return, the frame is plain (an
    [int64] column of years, ASCII dates) and the upload, if there is one,
    returns. *)
Theorem main_returns_on_acs5
    {Geometry : Type} (E : Extern Geometry) (dataframe : list CanonRow)
    (keyed : DataFrame) (st : State) :
  dataframe ≠ [] →
  plain dataframe = true →
  get_source_acs5 E = Ok dataframe →
  assign_row_id E dataframe = Ok keyed →
  is_ok (socrata_apply E keyed) = true →
  (∀ k : Row, k ∈ keyed → no_null k = false)
  ∧ (∃ verdict, (validate_dataframe E keyed start).2 = Ok verdict)
  ∧ (main E st).2 = Ok ()
  ∧ exit_status (main E st).2 = 0.
Proof.
  intros _ _ Hsrc Hkeyed Hup.
  rewrite assign_row_id_total in Hkeyed. injection Hkeyed as <-.
  assert (∀ k : Row,
            k ∈ map (λ r, {| canon := r; row_id := Some (spec_row_id r) |}) dataframe →
            no_null k = false) as Hnull.
  { intros k (r & <- & Hr%list_elem_of_In)%list_elem_of_In%in_map_iff.
    unfold get_source_acs5 in Hsrc.
    destruct (query_run E) as [records|]; [|done]. cbn [mbind exc_bind] in Hsrc.
    destruct (transform_row_origin E _ _ _ Hsrc Hr)
      as (s & wkt & l & _ & _ & _ & _ & Hcan).
    apply null_denominator_no_null.
    by destruct Hcan as (_ & _ & _ & _ & _ & _ & _ & _ & _ & _ & _ & _ & ? & _). }
  split; [exact Hnull|].
  assert ((main E st).2 = Ok ()
          ∧ ∃ verdict,
              (validate_dataframe E
                 (map (λ r, {| canon := r; row_id := Some (spec_row_id r) |}) dataframe)
                 start).2 = Ok verdict) as [Hmain Hverdict].
  { unfold main. rewrite Hsrc.
    destruct (validate_cases E
                (map (λ r, {| canon := r; row_id := Some (spec_row_id r) |}) dataframe))
      as [(Hv & Hd & _)|[[Hn _]|(_ & Hd & _)]].
    - rewrite main_loop_publishes by done.
      destruct (socrata_apply E _); [|done].
      split; [done|]. exists true. by rewrite validate_dataframe_accepts.
    - destruct (main_loop_skips E "ACS5" dataframe [] st Hn) as [msg ->].
      split; [done|]. exists false.
      by destruct (validate_dataframe_rejects E _ start Hn) as [msg' ->].
    - destruct Hd. by apply dropna_nil. }
  split; [exact Hverdict|]. split; [exact Hmain|]. by rewrite Hmain.
Qed.

Lemma main_returns_on_acs5_witness :
  ∃ dataframe keyed,
    get_source_acs5 Fixture.online = Ok dataframe
    ∧ length dataframe = 3%nat
    ∧ assign_row_id Fixture.online dataframe = Ok keyed
    ∧ (∀ k : Row, k ∈ keyed → no_null k = false)
    ∧ exit_status (main Fixture.online start).2 = 0.
Proof.
  assert (∃ dataframe, get_source_acs5 Fixture.online = Ok dataframe
                       ∧ length dataframe = 3%nat
                       ∧ plain dataframe = true)
    as (dataframe & Hsrc & Hlen & Hyears).
  { eexists. split; [vm_compute; reflexivity|]. split; reflexivity. }
  assert (∃ keyed, assign_row_id Fixture.online dataframe = Ok keyed)
    as [keyed Hkeyed] by (rewrite assign_row_id_total; eauto).
  assert (dataframe ≠ []) as Hne by (intros ->; discriminate Hlen).
  destruct (main_returns_on_acs5 Fixture.online dataframe keyed start
              Hne Hyears Hsrc Hkeyed eq_refl) as (Hnull & _ & _ & Hexit).
  exists dataframe, keyed. split; [exact Hsrc|]. split; [exact Hlen|].
  split; [exact Hkeyed|]. split; [exact Hnull|exact Hexit].
Defined.

End MainClaims.

(** ** Dates *)

Section DateFacts.
Import Py Strptime Dates.

Lemma Z_interval_cases (P : Z → Prop) (lo : Z) (n : nat) :
  (∀ k : nat, (k < n)%nat → P (lo + Z.of_nat k)) →
  ∀ z, lo ≤ z < lo + Z.of_nat n → P z.
Proof.
  intros H z Hz. replace z with (lo + Z.of_nat (Z.to_nat (z - lo))) by lia.
  apply H. lia.
Qed.

Lemma digit_digit_char (k : Z) : 0 ≤ k ≤ 9 → digit (digit_char k) = Some k.
Proof.
  intros Hk.
  apply (Z_interval_cases (λ k, digit (digit_char k) = Some k) 0 10); [|lia].
  intros n Hn. do 10 (destruct n as [|n]; [reflexivity|]). lia.
Qed.

Lemma list_ascii_of_string_app (s t : string) :
  list_ascii_of_string (s +:+ t)
  = (list_ascii_of_string s ++ list_ascii_of_string t)%list.
Proof.
  induction s as [|c s IH]; [done|].
  change (c :: list_ascii_of_string (s +:+ t)
          = c :: (list_ascii_of_string s ++ list_ascii_of_string t)%list).
  by rewrite IH.
Qed.

Lemma match_Y_four (y : Z) (rest : list ascii) :
  0 ≤ y ≤ 9999 →
  match_Y (list_ascii_of_string (four y) ++ "-"%char :: rest) = Some (y, rest).
Proof.
  intros Hy. unfold four. cbn [list_ascii_of_string app]. unfold match_Y.
  rewrite !digit_digit_char by (Z.div_mod_to_equations; lia).
  cbn [mbind option_bind]. do 2 f_equal. Z.div_mod_to_equations. lia.
Qed.

Lemma match_m_two (m : Z) (p : bool) (rest : list ascii) :
  1 ≤ m ≤ 12 →
  match_m (list_ascii_of_string (two m (month_padding p)) ++ "-"%char :: rest)
  = Some (m, rest).
Proof.
  intros Hm.
  apply (Z_interval_cases
           (λ m, match_m (list_ascii_of_string (two m (month_padding p))
                          ++ "-"%char :: rest) = Some (m, rest)) 1 12); [|lia].
  intros n Hn.
  do 12 (destruct n as [|n];
         [destruct p; [reflexivity|];
          try reflexivity;
          destruct rest as [|[[] [] [] [] [] [] [] []] rest]; reflexivity|]).
  lia.
Qed.

Lemma match_d_two (d : Z) (p : padding) :
  1 ≤ d ≤ 31 → match_d (list_ascii_of_string (two d p)) = Some (d, []).
Proof.
  intros Hd.
  apply (Z_interval_cases
           (λ d, match_d (list_ascii_of_string (two d p)) = Some (d, [])) 1 31);
    [|lia].
  intros n Hn. do 31 (destruct n as [|n]; [by destruct p|]). lia.
Qed.

Lemma days_in_month_le (y m : Z) : days_in_month y m ≤ 31.
Proof. unfold days_in_month. repeat case_bool_decide; try case_match; lia. Qed.

Lemma strptime_date_text (y m d : Z) (pad_month : bool) (pad_day : padding) :
  is_date y m d →
  strptime_ymd (date_text y m d pad_month pad_day) = Ok (y, m, d).
Proof.
  intros (Hy & Hm & Hd). unfold strptime_ymd, date_text.
  pose proof (days_in_month_le y m).
  rewrite !list_ascii_of_string_app. cbn [list_ascii_of_string app].
  rewrite match_Y_four, match_m_two, match_d_two by lia.
  by rewrite bool_decide_eq_true_2 by lia.
Qed.

End DateFacts.

Section PrettyFacts.
Import Py Strptime Dates.

Lemma pretty_Z_pos (y : Z) : 0 < y → pretty y = pretty_N_go (Z.to_N y) "".
Proof.
  destruct y as [|p|p]; try lia. intros _.
  unfold pretty, pretty_Z, pretty, pretty_positive, pretty, pretty_N.
  by rewrite decide_False by done.
Qed.

Lemma pretty_N_char_digit (x : N) :
  (x < 10)%N → pretty_N_char x = digit_char (Z.of_N x).
Proof.
  intros Hx. assert (x ∈ [0; 1; 2; 3; 4; 5; 6; 7; 8; 9]%N) as Hin.
  { apply list_elem_of_In. cbn. lia. }
  repeat (apply elem_of_cons in Hin as [->|Hin]; [reflexivity|]).
  by apply elem_of_nil in Hin.
Qed.

(** The decimal text of a number of four digits. *)
Lemma pretty_four (y : Z) : 1000 ≤ y ≤ 9999 → pretty y = four y.
Proof.
  intros Hy. rewrite pretty_Z_pos by lia.
  rewrite 4!pretty_N_go_step by (zify; Z.div_mod_to_equations; lia).
  replace ((((Z.to_N y `div` 10) `div` 10) `div` 10) `div` 10)%N with 0%N
    by (zify; Z.div_mod_to_equations; lia).
  rewrite pretty_N_go_0, !pretty_N_char_digit by (apply N.mod_lt; lia).
  unfold four. repeat f_equal.
  all: rewrite ?N2Z.inj_mod, ?N2Z.inj_div, Z2N.id by lia.
  all: change (Z.of_N 10) with 10; Z.div_mod_to_equations; lia.
Qed.

(** The decimal text of a positive number starts with a digit from 1 to 9. *)
Lemma pretty_N_go_leading (x : N) (s : string) :
  (0 < x)%N →
  ∃ k t, 1 ≤ k ≤ 9 ∧ pretty_N_go x s = String (digit_char k) t.
Proof.
  revert s. induction (N.lt_wf_0 x) as [x _ IH]. intros s Hx.
  rewrite pretty_N_go_step by done.
  destruct (decide (x < 10)%N) as [Hlt|Hge].
  - replace (x `div` 10)%N with 0%N by (zify; Z.div_mod_to_equations; lia).
    rewrite pretty_N_go_0, pretty_N_char_digit by (apply N.mod_lt; lia).
    eexists _, _. split; [|reflexivity].
    rewrite N2Z.inj_mod. change (Z.of_N 10) with 10. Z.div_mod_to_equations. lia.
  - apply IH; zify; Z.div_mod_to_equations; lia.
Qed.

Lemma pretty_not_empty (y : Z) : pretty y ≠ "".
Proof.
  destruct y as [|p|p]; [done| |done].
  rewrite pretty_Z_pos by lia.
  destruct (pretty_N_go_leading (Z.to_N (Z.pos p)) "") as (k & t & _ & ->); [lia|done].
Qed.

Lemma digit_char_inj (j k : Z) :
  0 ≤ j ≤ 9 → 0 ≤ k ≤ 9 → digit_char j = digit_char k → j = k.
Proof.
  intros Hj Hk Heq. apply (f_equal digit) in Heq.
  rewrite !digit_digit_char in Heq by done. by injection Heq.
Qed.

(** A positive number whose text is four digits is the number the digits
    spell. *)
Lemma pretty_is_four (y y' : Z) :
  0 < y → 0 ≤ y' ≤ 9999 → pretty y = four y' → y = y'.
Proof.
  intros Hy Hy' Heq. destruct (decide (1000 ≤ y')) as [Hge|Hlt].
  - rewrite <- pretty_four in Heq by lia. by apply (inj pretty) in Heq.
  - rewrite pretty_Z_pos in Heq by done.
    destruct (pretty_N_go_leading (Z.to_N y) "") as (k & t & Hk & Hlead); [lia|].
    rewrite Hlead in Heq. unfold four in Heq. injection Heq as Hc _.
    apply digit_char_inj in Hc; [|lia|Z.div_mod_to_equations; lia].
    Z.div_mod_to_equations. lia.
Qed.

End PrettyFacts.

Section StrptimeInversion.
Import Py Strptime Dates.

Lemma digit_Some (c : ascii) (k : Z) :
  digit c = Some k → c = digit_char k ∧ 0 ≤ k ≤ 9.
Proof.
  intros H. destruct c as [[] [] [] [] [] [] [] []]; vm_compute in H;
    try discriminate H; injection H as <-; (split; [reflexivity|lia]).
Qed.

Lemma digit_in_Some (lo hi : Z) (c : ascii) (k : Z) :
  digit_in lo hi c = Some k → c = digit_char k ∧ 0 ≤ k ≤ 9 ∧ lo ≤ k ≤ hi.
Proof.
  unfold digit_in. destruct (digit c) as [k'|] eqn:Hc; [|done]. cbn.
  case_bool_decide; [|done]. intros [= <-].
  apply digit_Some in Hc as [? ?]. done.
Qed.

Lemma match_Y_Some (s : string) (y : Z) (r : list ascii) :
  match_Y (list_ascii_of_string s) = Some (y, r) →
  take_str 4 s = four y ∧ 0 ≤ y ≤ 9999.
Proof.
  destruct s as [|a [|b [|c [|d [|e s]]]]]; try done.
  cbn [list_ascii_of_string]. unfold match_Y.
  destruct e as [[] [] [] [] [] [] [] []]; try done.
  destruct (digit a) as [ka|] eqn:Ha; [|done].
  destruct (digit b) as [kb|] eqn:Hb; [|done].
  destruct (digit c) as [kc|] eqn:Hc; [|done].
  destruct (digit d) as [kd|] eqn:Hd; [|done].
  cbn [mbind option_bind]. intros [= <- _].
  apply digit_Some in Ha as [-> ?], Hb as [-> ?], Hc as [-> ?], Hd as [-> ?].
  split; [|lia]. cbn [take_str]. unfold four.
  repeat f_equal; Z.div_mod_to_equations; lia.
Qed.

Ltac invert_digits :=
  repeat match goal with
         | H : _ ∪ _ = Some _ |- _ => apply union_Some in H as [H|[_ H]]
         | H : _ ≫= _ = Some _ |- _ =>
             apply bind_Some in H as (? & ? & ?)
         | H : digit_in _ _ _ = Some _ |- _ => apply digit_in_Some in H as (_ & ? & ?)
         | H : digit _ = Some _ |- _ => apply digit_Some in H as (_ & ?)
         | H : None = Some _ |- _ => discriminate H
         | H : context [match ?x with _ => _ end] |- _ => destruct x eqn:?
         end.

Lemma match_m_Some (l : list ascii) (m : Z) (r : list ascii) :
  match_m l = Some (m, r) → 1 ≤ m ≤ 12.
Proof. unfold match_m. intros H. invert_digits; simplify_eq; lia. Qed.

Lemma match_d_Some (l : list ascii) (d : Z) (r : list ascii) :
  match_d l = Some (d, r) → 1 ≤ d ≤ 31.
Proof. unfold match_d. intros H. invert_digits; simplify_eq; lia. Qed.

End StrptimeInversion.

Section DateClaims.
Import Py Frame World Pandera UpdateSocrataDataset Spec Contract Strptime Dates.

Lemma strptime_Ok (value : string) (y m d : Z) :
  strptime_ymd value = Ok (y, m, d) → take_str 4 value = four y ∧ is_date y m d.
Proof.
  unfold strptime_ymd.
  destruct (match_Y _) as [[y' r]|] eqn:HY; [|done].
  destruct (match_m r) as [[m' r']|] eqn:Hm; [|done].
  destruct (match_d r') as [[d' [|]]|] eqn:Hd; [|done..].
  case_bool_decide as Hdate; [|done]. intros [= <- <- <-].
  apply match_Y_Some in HY as [? ?]. apply match_m_Some in Hm.
  apply match_d_Some in Hd. unfold is_date. repeat split; try done; lia.
Qed.

(** X14. [validate_year_date] accepts every calendar date of the years 1 to
    9999 written as the four digits of the year, the month and the day,
    with ["-"] between them, whether the month and the day below 10 are
    written with one digit or with a leading zero, or the day with a leading
    space; [strptime] reads the date back.  The same text for a year, month
    and day that are no calendar date (the year 0, the 30th of February, the
    29th of February of a year that is not leap) is rejected. *)
Theorem year_date_reads_written_dates
    (y m d : Z) (pad_month : bool) (pad_day : padding) :
  (is_date y m d →
   strptime_ymd (date_text y m d pad_month pad_day) = Ok (y, m, d)
   ∧ validate_year_date (date_text y m d pad_month pad_day) = true)
  ∧ (0 ≤ y ≤ 9999 → 1 ≤ m ≤ 12 → 1 ≤ d ≤ 31 → ¬ is_date y m d →
     validate_year_date (date_text y m d pad_month pad_day) = false).
Proof.
  split.
  - intros Hdate. unfold validate_year_date.
    by rewrite strptime_date_text.
  - intros Hy Hm Hd Hnot. unfold validate_year_date, strptime_ymd, date_text.
    rewrite !list_ascii_of_string_app. cbn [list_ascii_of_string app].
    rewrite match_Y_four, match_m_two, match_d_two by lia.
    rewrite bool_decide_eq_false_2; [done|].
    intros [? ?]. apply Hnot. unfold is_date. lia.
Qed.

Lemma year_date_reads_written_dates_witness :
  (is_date 2020 2 29
   ∧ date_text 2020 2 29 true Zero = "2020-02-29"
   ∧ validate_year_date "2020-02-29" = true
   ∧ validate_year_date (date_text 2020 2 9 false Bare) = true
   ∧ date_text 2020 2 9 false Bare = "2020-2-9")
  ∧ (¬ is_date 2019 2 29 ∧ validate_year_date "2019-02-29" = false).
Proof.
  assert (is_date 2020 2 29) as H1 by (vm_compute; intuition discriminate).
  assert (is_date 2020 2 9) as H2 by (vm_compute; intuition discriminate).
  assert (¬ is_date 2019 2 29) as H3.
  { intros (_ & _ & _ & H). vm_compute in H. by apply H. }
  split.
  - split; [exact H1|]. split; [reflexivity|].
    split; [exact (proj2 (proj1 (year_date_reads_written_dates 2020 2 29 true Zero) H1))|].
    split; [exact (proj2 (proj1 (year_date_reads_written_dates 2020 2 9 false Bare) H2))|].
    reflexivity.
  - split; [exact H3|].
    refine (proj2 (year_date_reads_written_dates 2019 2 29 true Zero) _ _ _ H3); lia.
Defined.

(** X15. In a table, of ASCII dates, that the validator accepts, the
    [year_date] of every row is a calendar date, which starts with the four
    digits of its year, and the [year] of the row lies between 2000 and the
    current year.  The year of the date need not be the [year] of the
    row. *)
Theorem accepted_year_date_is_a_date
    {Geometry : Type} (E : Extern Geometry) (dataframe : DataFrame) (st : State)
    (r : Row) :
  ascii_texts (map (λ r : Row, year_date r) dataframe) = true →
  (validate_dataframe E dataframe st).2 = Ok true → r ∈ dataframe →
  ∃ y value y' m d,
    year r = Some y ∧ 2000 ≤ y ≤ now_year E
    ∧ year_date r = Some value
    ∧ strptime_ymd value = Ok (y', m, d)
    ∧ is_date y' m d ∧ take_str 4 value = four y'.
Proof.
  intros _ Hok Hr. apply accepted_rows_ok in Hok as [Hrows _].
  destruct (Hrows r Hr)
    as ((_ & _ & _ & _ & (y & Hy & Hrange) & (value & Hd & Hfmt) & _) & _).
  unfold validate_year_date in Hfmt.
  destruct (strptime_ymd value) as [[[y' m] d]|] eqn:Hparse; [|done].
  destruct (strptime_Ok _ _ _ _ Hparse) as [Hfour Hdate].
  by exists y, value, y', m, d.
Qed.

Lemma accepted_year_date_is_a_date_witness :
  ascii_texts (map (λ r : Row, year_date r) [Cases.late]) = true
  ∧ (validate_dataframe Fixture.online [Cases.late] start).2 = Ok true
  ∧ ∃ y value y' m d,
      year Cases.late = Some y ∧ 2000 ≤ y ≤ now_year Fixture.online
      ∧ year_date Cases.late = Some value
      ∧ strptime_ymd value = Ok (y', m, d)
      ∧ is_date y' m d ∧ take_str 4 value = four y'.
Proof.
  assert (ascii_texts (map (λ r : Row, year_date r) [Cases.late]) = true)
    as Hascii by (vm_compute; reflexivity).
  assert ((validate_dataframe Fixture.online [Cases.late] start).2 = Ok true)
    as Hok by (vm_compute; reflexivity).
  split; [exact Hascii|]. split; [exact Hok|].
  apply (accepted_year_date_is_a_date Fixture.online _ start _ Hascii Hok). by left.
Defined.

End DateClaims.

(** ** The identifier tells subjects apart *)

Section SeparatorFacts.
Import Py Frame World Pandera UpdateSocrataDataset Spec Contract Strptime Dates.

Lemma bar_is_no_digit (k : Z) : 0 ≤ k ≤ 9 → "|"%char ≠ digit_char k.
Proof.
  intros Hk Heq. apply (f_equal digit) in Heq.
  by rewrite digit_digit_char in Heq.
Qed.

Lemma pretty_N_go_chars (x : N) (s : string) (c : ascii) :
  c ∈ list_ascii_of_string (pretty_N_go x s) →
  c ∈ list_ascii_of_string s ∨ ∃ k, 0 ≤ k ≤ 9 ∧ c = digit_char k.
Proof.
  revert s. induction (N.lt_wf_0 x) as [x _ IH]. intros s.
  destruct (decide (x = 0)%N) as [->|Hx].
  - rewrite pretty_N_go_0. by left.
  - rewrite pretty_N_go_step by lia. intros [Hc|Hc]%IH.
    + cbn in Hc. apply elem_of_cons in Hc as [->|Hc]; [right|by left].
      rewrite pretty_N_char_digit by (apply N.mod_lt; lia).
      eexists. split; [|reflexivity].
      rewrite N2Z.inj_mod. change (Z.of_N 10) with 10. Z.div_mod_to_equations. lia.
    + by right.
    + apply N.div_lt; lia.
Qed.

(** The text of a year holds no separator. *)
Lemma year_text_bar_free (o : option Z) :
  "|"%char ∉ list_ascii_of_string (year_text o).
Proof.
  destruct o as [[|p|p]|]; cbn [year_text from_option].
  - intros [[=]|[]%elem_of_nil]%elem_of_cons.
  - rewrite pretty_Z_pos by lia.
    intros [[]%elem_of_nil|(k & Hk & Heq)]%pretty_N_go_chars.
    by apply bar_is_no_digit in Heq.
  - change (pretty (Z.neg p)) with ("-" +:+ pretty (Z.pos p)).
    rewrite pretty_Z_pos by lia. cbn [list_ascii_of_string String.append].
    intros [[=]|[[]%elem_of_nil|(k & Hk & Heq)]%pretty_N_go_chars]%elem_of_cons.
    by apply bar_is_no_digit in Heq.
  - intros []%elem_of_nil.
Qed.

Lemma year_text_inj (o1 o2 : option Z) : year_text o1 = year_text o2 → o1 = o2.
Proof.
  destruct o1 as [y1|], o2 as [y2|]; cbn; intros H; try done.
  - f_equal. by apply (inj pretty).
  - by apply pretty_not_empty in H.
  - symmetry in H. by apply pretty_not_empty in H.
Qed.

(** Two texts cut at their first separator. *)
Lemma split_at_bar (s1 s2 t1 t2 : string) :
  "|"%char ∉ list_ascii_of_string s1 → "|"%char ∉ list_ascii_of_string s2 →
  s1 +:+ "|" +:+ t1 = s2 +:+ "|" +:+ t2 → s1 = s2 ∧ t1 = t2.
Proof.
  revert s2. induction s1 as [|c1 s1 IH]; intros [|c2 s2] H1 H2 Heq.
  - by injection Heq.
  - injection Heq as <- _. destruct H2. left.
  - injection Heq as -> _. destruct H1. left.
  - injection Heq as -> Heq. cbn in H1, H2. rewrite not_elem_of_cons in H1, H2.
    destruct (IH s2) as [-> ->]; [tauto..|done|done].
Qed.

End SeparatorFacts.

Section SeparatorClaims.
Import Py Frame World Pandera UpdateSocrataDataset Spec Contract.

(** X16. The identifier tells subjects apart as long as [source],
    [variable] and [denominator_variable] hold no ["|"]: two rows with the
    same identifier then have the same year and the same text in the four
    other identity fields, a null field and an empty one being the same
    text.  With a ["|"] in a field, rows that differ in [variable] can have
    the same identifier. *)
Theorem row_id_tells_subjects_apart {Geometry : Type} (E : Extern Geometry) :
  (∀ r1 r2 : CanonRow,
     bar_free (source r1) → bar_free (variable r1) →
     bar_free (denominator_variable r1) →
     bar_free (source r2) → bar_free (variable r2) →
     bar_free (denominator_variable r2) →
     make_row_id E (canon_items r1) = make_row_id E (canon_items r2) →
     text (source r1) = text (source r2)
     ∧ text (variable r1) = text (variable r2)
     ∧ text (denominator_variable r1) = text (denominator_variable r2)
     ∧ year r1 = year r2
     ∧ text (geo_id r1) = text (geo_id r2))
  ∧ (∃ r1 r2 : CanonRow,
       make_row_id E (canon_items r1) = make_row_id E (canon_items r2)
       ∧ variable r1 ≠ variable r2).
Proof.
  split.
  - intros r1 r2 Hs1 Hv1 Hd1 Hs2 Hv2 Hd2. rewrite !make_row_id_canon.
    intros [= Heq]. unfold spec_row_id in Heq. cbn [join] in Heq.
    apply split_at_bar in Heq as [? Heq]; [|done..].
    apply split_at_bar in Heq as [? Heq]; [|done..].
    apply split_at_bar in Heq as [? Heq]; [|done..].
    apply split_at_bar in Heq as [Hy ?]; [|apply year_text_bar_free..].
    apply year_text_inj in Hy. done.
  - exists (Fixture.with_geo_id
              {| source := Some "ACS5"; topic := None; concept := None;
                 variable := Some "A|"; label := None; value := 1%float;
                 denominator_variable := None; denominator_label := None;
                 denominator := PrimFloat.nan; year := Some 2018;
                 year_date := None; geo_id := None; geo_name := None;
                 geo_type := None; location := None |} "g"),
           (Fixture.with_geo_id
              {| source := Some "ACS5"; topic := None; concept := None;
                 variable := Some "A"; label := None; value := 1%float;
                 denominator_variable := Some "|"; denominator_label := None;
                 denominator := PrimFloat.nan; year := Some 2018;
                 year_date := None; geo_id := None; geo_name := None;
                 geo_type := None; location := None |} "g").
    rewrite !make_row_id_canon. split; [reflexivity|discriminate].
Qed.

Lemma row_id_tells_subjects_apart_witness :
  let r1 := Fixture.good in
  let r2 := Fixture.with_value Fixture.good 1%float in
  bar_free (source r1) ∧ bar_free (variable r1) ∧ bar_free (denominator_variable r1)
  ∧ make_row_id Fixture.online (canon_items r1)
    = make_row_id Fixture.online (canon_items r2)
  ∧ year r1 = year r2 ∧ text (geo_id r1) = text (geo_id r2).
Proof.
  assert (∀ o, o ∈ [source Fixture.good; variable Fixture.good;
                    denominator_variable Fixture.good] → bar_free o) as Hfree.
  { intros o Ho. apply (bool_decide_unpack _).
    repeat (apply elem_of_cons in Ho as [->|Ho]; [vm_compute; exact I|]).
    by apply elem_of_nil in Ho. }
  assert (make_row_id Fixture.online (canon_items Fixture.good)
          = make_row_id Fixture.online
              (canon_items (Fixture.with_value Fixture.good 1%float))) as Heq
    by reflexivity.
  destruct (proj1 (row_id_tells_subjects_apart Fixture.online)
              Fixture.good (Fixture.with_value Fixture.good 1%float))
    as (_ & _ & _ & Hy & Hg);
    [apply Hfree; by left|apply Hfree; by right; left
    |apply Hfree; by do 2 right; left
    |apply Hfree; by left|apply Hfree; by right; left
    |apply Hfree; by do 2 right; left|exact Heq|].
  split; [apply Hfree; by left|]. split; [apply Hfree; by right; left|].
  split; [apply Hfree; by do 2 right; left|].
  split; [exact Heq|]. split; [exact Hy|exact Hg].
Defined.

End SeparatorClaims.

(** ** Locations, diagnostics and duplicated labels *)

Section MoreValidatorClaims.
Import Py Frame World Pandera UpdateSocrataDataset Spec Contract.



(** X18. What the validator does of a plain table (an [int64] column of
    years, ASCII dates), and what it leaves in the state.  When the columns
    are valid and every row holds a null, it answers [True] and the state
    is unchanged; when a column is not valid, it answers [False], the log
    grows by exactly one warning, which starts with
    ["Failed to validate dataframe: "], and the uploads are unchanged; when
    the columns are valid and a row holds no null, it raises
    [AttributeError] and the state is unchanged. *)
Theorem validate_dataframe_outcomes
    {Geometry : Type} (E : Extern Geometry) (dataframe : DataFrame) (st : State) :
  plain (map canon dataframe) = true →
  (columns_valid E dataframe
   ∧ (∀ r, r ∈ dataframe → no_null r = false)
   ∧ validate_dataframe E dataframe st = (st, Ok true))
  ∨ (¬ columns_valid E dataframe
     ∧ ∃ msg,
         validate_dataframe E dataframe st
         = ({| logged := logged st
                         ++ [(WARNING, "Failed to validate dataframe: " +:+ msg)];
               uploaded := uploaded st |}, Ok false))
  ∨ (columns_valid E dataframe
     ∧ (∃ r, r ∈ dataframe ∧ no_null r = true)
     ∧ ∃ msg, validate_dataframe E dataframe st = (st, Raise (AttributeError msg))).
Proof.
  intros _.
  destruct (validate_cases E dataframe) as [(Hv & Hd & _)|[[Hn _]|(Hv & Hd & _)]].
  - left. split; [done|]. split; [by apply dropna_nil|].
    by apply validate_dataframe_accepts.
  - right. left. split; [done|]. by apply validate_dataframe_rejects.
  - right. right. split; [done|]. split; [|by apply validate_dataframe_raises].
    unfold dropna in Hd. destruct (List.filter no_null dataframe) as [|r l] eqn:Hf;
      [done|].
    assert (In r (List.filter no_null dataframe)) as [Hr Hn]%filter_In
      by (rewrite Hf; by left).
    exists r. split; [by apply list_elem_of_In|done].
Qed.

Lemma validate_dataframe_outcomes_witness :
  plain (map canon [Cases.whole]) = true
  ∧ columns_valid Fixture.online [Cases.whole]
  ∧ ∃ msg, validate_dataframe Fixture.online [Cases.whole] start
           = (start, Raise (AttributeError msg)).
Proof.
  assert (plain (map canon [Cases.whole]) = true) as Hy
    by reflexivity.
  split; [exact Hy|].
  destruct (validate_dataframe_outcomes Fixture.online [Cases.whole] start Hy)
    as [(_ & Hn & _)|[[Hn _]|(Hv & _ & Hraise)]].
  - specialize (Hn Cases.whole (list_elem_of_here _ _)). vm_compute in Hn.
    discriminate Hn.
  - destruct Hn. apply columns_valid_ok. vm_compute. reflexivity.
  - split; [exact Hv|exact Hraise].
Defined.

End MoreValidatorClaims.

Section DuplicatedLabels.
Import Py Frame World Pandera UpdateSocrataDataset Spec Acs5 Contract.
Context {Geometry : Type} (E : Extern Geometry).






End DuplicatedLabels.

Section DuplicatedLabelClaims.
Import Py Frame World Pandera UpdateSocrataDataset Spec Acs5 Contract.



End DuplicatedLabelClaims.
